(** * Verification of [scripts/process_video_gameplay.py]

    The script assembles a vertical 1080x1920 short from a landscape
    gameplay-plus-webcam recording.  This development embeds the script
    function by function.  MoviePy, NumPy and OpenCV are libraries the
    script calls; they are modelled in [Module MoviePy] and [Module Py]
    down to the attributes the script reads (frame size, duration, audio,
    position).  The file system, the decoder, the text renderer, the face
    detector and the encoder are oracles gathered in [Env]. *)

From Stdlib Require Import ZArith QArith Qminmax String List Bool Lia.
From Stdlib Require Import Floats.PrimFloat Floats.SpecFloat Floats.FloatOps.
From Stdlib Require Import Uint63.
Import ListNotations.

Local Open Scope string_scope.
Local Open Scope Z_scope.

(** ** Python numbers *)

Module Py.

(** [float(n)] for a machine-sized non-negative integer. *)
Definition float_of_int (n : Z) : float :=
  PrimFloat.of_uint63 (Uint63.of_Z n).

(** Magnitude of a finite binary64 value [m * 2^e], truncated. *)
Definition trunc_mag (m : positive) (e : Z) : Z :=
  if 0 <=? e then Z.pos m * 2 ^ e else Z.quot (Z.pos m) (2 ^ (- e)).

(** [int(x)] on a float: truncation toward zero; [None] where Python
    raises (infinities and NaN). *)
Definition int_of_float (x : float) : option Z :=
  match Prim2SF x with
  | S754_zero _ => Some 0
  | S754_finite s m e =>
      let v := trunc_mag m e in Some (if s then - v else v)
  | S754_infinity _ => None
  | S754_nan => None
  end.

(** [round(x)] on a float: nearest integer, ties to even.  The script
    never calls it; it is here to compare against [int]. *)
Definition round_of_float (x : float) : option Z :=
  match Prim2SF x with
  | S754_zero _ => Some 0
  | S754_finite s m e =>
      let v :=
        if 0 <=? e then Z.pos m * 2 ^ e
        else
          let d := 2 ^ (- e) in
          let q := Z.pos m / d in
          let r := Z.pos m mod d in
          match 2 * r ?= d with
          | Lt => q
          | Gt => q + 1
          | Eq => if Z.even q then q else q + 1
          end in
      Some (if s then - v else v)
  | S754_infinity _ => None
  | S754_nan => None
  end.

(** The other float values the script handles (half-pixel centres,
    quotients of frame dimensions, durations) are modelled as exact
    rationals; [int] truncates toward zero. *)
Definition int_of_Q (q : Q) : Z := Z.quot (Qnum q) (Z.pos (Qden q)).

(** Truth value of an optional number: [None] and zero are falsy. *)
Definition truthy (o : option Q) : bool :=
  match o with
  | Some q => negb (Qnum q =? 0)
  | None => false
  end.

Definition is_not_None {A} (o : option A) : bool :=
  match o with Some _ => true | None => false end.

(** [o or d]. *)
Definition or_default (o : option Q) (d : Q) : Q :=
  if truthy o then match o with Some q => q | None => d end else d.

(** One bound of a slice [a:b] over an axis of length [n]: negative
    indices count from the end, everything is clipped to [0, n]. *)
Definition slice_index (n i : Z) : Z :=
  if i <? 0 then Z.max (i + n) 0 else Z.min i n.

(** The window [start, stop) selected by [a:b] on an axis of length [n];
    an inverted window is empty. *)
Definition slice (n a b : Z) : Z * Z :=
  let start := slice_index n a in
  let stop := slice_index n b in
  (start, Z.max start stop).

(** [d.get(key, default)] on a dictionary with string keys and values. *)
Fixpoint dict_get (d : list (string * string)) (key default : string) : string :=
  match d with
  | [] => default
  | (k, v) :: rest => if String.eqb k key then v else dict_get rest key default
  end.

(** [os.path.join] of two components. *)
Definition path_join (a b : string) : string := a ++ "/" ++ b.

End Py.

(** ** Exceptions, events and the execution monad *)

(** [RuntimeError] is what the script raises and catches by name; every
    other exception of the libraries is an [Exception] that is not a
    [RuntimeError]. *)
Inductive exn : Type :=
| RuntimeError (msg : string)
| LibraryError (kind msg : string).

Definition exn_msg (e : exn) : string :=
  match e with
  | RuntimeError m => m
  | LibraryError _ m => m
  end.

Inductive result (A : Type) : Type :=
| Ok (a : A)
| Raise (e : exn).
Arguments Ok {A} a.
Arguments Raise {A} e.

(** ** Clips, layers and videos *)

(** Where the pixels of a clip come from. *)
Inductive content : Type :=
| FromFile (path : string)
| Image (path : string)
| Color (r g b : Z)
| Text (txt : string) (font : option string) (fontsize : Z) (stroke_width : Q)
| Subclipped (inner : content) (t_start t_end : Q)
| Cropped (inner : content) (x1 y1 x2 y2 : Z)
| Resized (inner : content) (w h : Z).

(** [clip.audio] of a video file: the audio track and its duration. *)
Record AudioClip : Type := mkAudio {
  audio_path : string;
  audio_duration : Q
}.

(** A position coordinate: a pixel offset or one of MoviePy's keywords. *)
Inductive coord : Type :=
| Px (p : Z)
| Center
| Top
| Bottom.

(** The attributes of a MoviePy video clip the script reads or sets. *)
Record Clip : Type := mkClip {
  clip_src : content;
  clip_w : Z;
  clip_h : Z;
  clip_duration : option Q;
  clip_audio : option AudioClip;
  clip_pos : coord * coord
}.

(** A [CompositeVideoClip]: layers bottom to top, canvas size, audio. *)
Record Composite : Type := mkComposite {
  layers : list Clip;
  comp_size : Z * Z;
  comp_audio : option AudioClip
}.

(** The objects the script closes and renders. *)
Inductive video : Type :=
| VClip (c : Clip)
| VComposite (c : Composite)
| VConcat (main : video) (tail : Clip).

(** A decoded frame: [shape[0]] is the height, [shape[1]] the width. *)
Record Frame : Type := mkFrame {
  shape0 : Z;
  shape1 : Z
}.

(** A rectangle in source-frame pixels, as the [WEBCAM_COORDS] dictionary. *)
Record Rect : Type := mkRect {
  x1 : Z;
  y1 : Z;
  x2 : Z;
  y2 : Z
}.

(** What a run does to the outside world, in order. *)
Inductive event : Type :=
| EvDetect (roi : Rect)
| EvWrite (path : string) (v : video) (fps : Z) (codec audio_codec : string)
| EvClose (v : video).

(** A computation reads the trace so far and returns a value or raises,
    with the trace extended by its events. *)
Definition M (A : Type) : Type := list event -> result A * list event.

Definition ret {A} (a : A) : M A := fun tr => (Ok a, tr).

Definition bind {A B} (m : M A) (k : A -> M B) : M B :=
  fun tr =>
    match m tr with
    | (Ok a, tr') => k a tr'
    | (Raise e, tr') => (Raise e, tr')
    end.

Definition raise {A} (e : exn) : M A := fun tr => (Raise e, tr).

Definition emit (ev : event) : M unit := fun tr => (Ok tt, (tr ++ [ev])%list).

(** [try: m  except RuntimeError as e: handler e]. *)
Definition try_except_RuntimeError {A} (m : M A) (handler : exn -> M A) : M A :=
  fun tr =>
    match m tr with
    | (Raise (RuntimeError msg), tr') => handler (RuntimeError msg) tr'
    | other => other
    end.

(** [try: m  except Exception as e: handler e]. *)
Definition try_except_Exception {A} (m : M A) (handler : exn -> M A) : M A :=
  fun tr =>
    match m tr with
    | (Raise e, tr') => handler e tr'
    | other => other
    end.

Declare Scope py_scope.
Delimit Scope py_scope with py.
Notation "x <- m ;; k" := (bind m (fun x => k))
  (at level 100, m at next level, right associativity) : py_scope.
Notation "m ;;; k" := (bind m (fun _ => k))
  (at level 100, right associativity) : py_scope.
Local Open Scope py_scope.

(** ** The environment of a run *)

(** What [ffmpeg] reports for a video file. *)
Record VideoInfo : Type := mkVideoInfo {
  vi_w : Z;
  vi_h : Z;
  vi_duration : Q;
  vi_audio : option Q;      (* duration of the audio track, if any *)
  vi_frame0 : bool          (* can the frame at t = 0 be decoded? *)
}.

(** An importable [cv2] module. *)
Record Cv2 : Type := mkCv2 {
  haarcascades : string;             (* cv2.data.haarcascades *)
  faces_in : Rect -> nat             (* matches of the frontal-face cascade in a region of frame 0 *)
}.

Record Env : Type := mkEnv {
  script_dir : string;                          (* os.path.dirname(__file__) *)
  path_exists : string -> bool;                 (* os.path.exists *)
  probe : string -> option VideoInfo;           (* None: the file cannot be opened *)
  image_size : string -> option (Z * Z);        (* None: the image cannot be read *)
  text_size : string -> option string -> Z -> option (Z * Z);
                                                (* None: the text cannot be rendered *)
  cv2 : option Cv2;                             (* None: [import cv2] failed *)
  cv2_import_error : string;
  can_write : string -> bool                    (* does encoding to the path succeed? *)
}.

(** ** The MoviePy and OpenCV calls the script makes *)

Module MoviePy.

Definition default_pos : coord * coord := (Px 0, Px 0).

(** [VideoFileClip(path)]. *)
Definition VideoFileClip (env : Env) (path : string) : M Clip :=
  match probe env path with
  | Some vi =>
      ret (mkClip (FromFile path) (vi_w vi) (vi_h vi) (Some (vi_duration vi))
             (option_map (mkAudio path) (vi_audio vi)) default_pos)
  | None => raise (LibraryError "OSError" path)
  end.

(** [clip.subclip(t_start, t_end)] with both bounds given and
    non-negative: a start beyond the clip's end is refused; the new
    duration is [t_end - t_start], on the clip and on its audio. *)
Definition subclip (clip : Clip) (t_start t_end : Q) : M Clip :=
  let beyond_end :=
    match clip_duration clip with
    | Some d => match (t_start ?= d)%Q with Gt => true | _ => false end
    | None => false
    end in
  if beyond_end
  then raise (LibraryError "ValueError" "t_start beyond the clip's end")
  else
    ret (mkClip (Subclipped (clip_src clip) t_start t_end)
           (clip_w clip) (clip_h clip)
           (Some (t_end - t_start)%Q)
           (option_map (fun a => mkAudio (audio_path a) (t_end - t_start)%Q)
              (clip_audio clip))
           (clip_pos clip)).

Definition set_duration (clip : Clip) (d : option Q) : Clip :=
  mkClip (clip_src clip) (clip_w clip) (clip_h clip) d (clip_audio clip) (clip_pos clip).

Definition set_position (clip : Clip) (p : coord * coord) : Clip :=
  mkClip (clip_src clip) (clip_w clip) (clip_h clip) (clip_duration clip)
    (clip_audio clip) p.

(** One axis of [crop]: the keyword arguments [lo], [hi], [size] and
    [center] give the bounds [int(lo)] and [int(hi)] of the slice taken
    on an axis of length [n].  (Where the script passes a centre it
    passes a size too.) *)
Definition crop_axis (n : Z) (lo hi size center : option Q) : Z * Z :=
  let '(lo, hi) :=
    match size, lo, hi with
    | Some s, Some l, _ =>
        if Py.truthy size then (lo, Some (l + s)%Q) else (lo, hi)
    | Some s, None, Some u =>
        if Py.truthy size then (Some (u - s)%Q, hi) else (lo, hi)
    | _, _, _ => (lo, hi)
    end in
  let '(lo, hi) :=
    match center, size with
    | Some c, Some s =>
        if Py.truthy center
        then (Some (c - s / 2)%Q, Some (c + s / 2)%Q)
        else (lo, hi)
    | _, _ => (lo, hi)
    end in
  let lo := Py.or_default lo 0%Q in
  let hi := Py.or_default hi (inject_Z n) in
  (Py.int_of_Q lo, Py.int_of_Q hi).

(** [clip.crop(x1=, y1=, x2=, y2=, width=, height=, x_center=, y_center=)]:
    every frame [pic] becomes [pic[int(y1):int(y2), int(x1):int(x2)]]. *)
Definition crop (clip : Clip)
    (x1 y1 x2 y2 width height x_center y_center : option Q) : Clip :=
  let '(xa, xb) := crop_axis (clip_w clip) x1 x2 width x_center in
  let '(ya, yb) := crop_axis (clip_h clip) y1 y2 height y_center in
  let '(xs, xe) := Py.slice (clip_w clip) xa xb in
  let '(ys, ye) := Py.slice (clip_h clip) ya yb in
  mkClip (Cropped (clip_src clip) xs ys xe ye) (xe - xs) (ye - ys)
    (clip_duration clip) (clip_audio clip) (clip_pos clip).

(** The resizer applied to frame 0 when the resized clip is built: it
    raises on an empty frame or an empty target. *)
Definition resizer (clip : Clip) (lx ly : Z) : M Clip :=
  if (clip_w clip <=? 0) || (clip_h clip <=? 0) || (lx <=? 0) || (ly <=? 0)
  then raise (LibraryError "cv2.error" "resize of or to an empty image")
  else ret (mkClip (Resized (clip_src clip) lx ly) lx ly
              (clip_duration clip) (clip_audio clip) (clip_pos clip)).

(** [clip.resize(height=h)]: [newsize = [w * height / h, height]], the
    frames get size [(int(newsize[0]), int(newsize[1]))].  The quotient is
    kept exact; its binary64 rounding truncates to the same integer as
    long as [w * height] stays below 2^53. *)
Definition resize_height (clip : Clip) (height : Z) : M Clip :=
  if clip_h clip =? 0
  then raise (LibraryError "ZeroDivisionError" "division by zero")
  else
    let newsize0 := (clip_w clip * height # Z.to_pos (clip_h clip))%Q in
    resizer clip (Py.int_of_Q newsize0) height.

(** [clip.resize(newsize)] with a pair. *)
Definition resize_to (clip : Clip) (newsize : Z * Z) : M Clip :=
  resizer clip (fst newsize) (snd newsize).

(** [ImageClip(path)]. *)
Definition ImageClip (env : Env) (path : string) : M Clip :=
  match image_size env path with
  | Some (w, h) => ret (mkClip (Image path) w h None None default_pos)
  | None => raise (LibraryError "OSError" path)
  end.

(** [ColorClip(size, color=(r, g, b))]. *)
Definition ColorClip (size : Z * Z) (r g b : Z) : Clip :=
  mkClip (Color r g b) (fst size) (snd size) None None default_pos.

(** [TextClip(txt, fontsize=, font=, color='white', stroke_color='black',
    stroke_width=)]; [font = None] is the default font. *)
Definition TextClip (env : Env) (txt : string) (fontsize : Z)
    (font : option string) (stroke_width : Q) : M Clip :=
  match text_size env txt font fontsize with
  | Some (w, h) =>
      ret (mkClip (Text txt font fontsize stroke_width) w h None None default_pos)
  | None => raise (LibraryError "OSError" "ImageMagick could not render the text")
  end.

(** [CompositeVideoClip(clips, size=size)]; its audio is set afterwards. *)
Definition CompositeVideoClip (clips : list Clip) (size : Z * Z) : Composite :=
  mkComposite clips size None.

Definition set_audio (c : Composite) (a : option AudioClip) : Composite :=
  mkComposite (layers c) (comp_size c) a.

(** [concatenate_videoclips([main, tail])]. *)
Definition concatenate_videoclips (main : video) (tail : Clip) : video :=
  VConcat main tail.

(** The video file a clip's frames are decoded from, if any. *)
Fixpoint root_file (c : content) : option string :=
  match c with
  | FromFile p => Some p
  | Subclipped i _ _ => root_file i
  | Cropped i _ _ _ _ => root_file i
  | Resized i _ _ => root_file i
  | Image _ | Color _ _ _ | Text _ _ _ _ => None
  end.

(** [clip.get_frame(0.0)]: an array of shape [(h, w, 3)], or an
    exception of the decoder. *)
Definition get_frame0 (env : Env) (clip : Clip) : M Frame :=
  match root_file (clip_src clip) with
  | Some p =>
      match probe env p with
      | Some vi =>
          if vi_frame0 vi then ret (mkFrame (clip_h clip) (clip_w clip))
          else raise (LibraryError "OSError" "failed to read the first frame")
      | None => raise (LibraryError "OSError" p)
      end
  | None => ret (mkFrame (clip_h clip) (clip_w clip))
  end.

(** [face_cascade.detectMultiScale(roi_gray, ...)] on the region
    [frame0[y1:y2, x1:x2]]: the number of matches. *)
Definition detectMultiScale (cv : Cv2) (roi : Rect) : M nat :=
  emit (EvDetect roi) ;;; ret (faces_in cv roi).

(** [v.write_videofile(path, fps=, codec=, audio_codec=)]. *)
Definition write_videofile (env : Env) (v : video) (path : string)
    (fps : Z) (codec audio_codec : string) : M unit :=
  if can_write env path
  then emit (EvWrite path v fps codec audio_codec)
  else raise (LibraryError "OSError" path).

(** [v.close()]. *)
Definition close (v : video) : M unit := emit (EvClose v).

End MoviePy.

(** ** The script *)

Import MoviePy.

(** *** Global configuration *)

Definition RESOLUTION : Z * Z := (1080, 1920).   (* (width, height) *)
Definition MAX_DURATION : Z := 180.              (* seconds *)
Definition WEBCAM_COORDS : Rect := mkRect 5 8 542 282.

Definition ASSETS_DIR (env : Env) : string :=
  Py.path_join (Py.path_join (script_dir env) "..") "assets".

(** [int(n * x)] for an integer [n] and a float [x]. *)
Definition int_of_product (n : Z) (x : float) : M Z :=
  match Py.int_of_float (PrimFloat.mul (Py.float_of_int n) x) with
  | Some z => ret z
  | None => raise (LibraryError "OverflowError" "cannot convert float to integer")
  end.

#[local] Set Warnings "-inexact-float".
Definition ratio_033 : float := 0.33%float.
Definition ratio_067 : float := 0.67%float.
#[local] Set Warnings "inexact-float".

(** *** Utility functions *)

Definition load_clip (env : Env) (path : string) : M Clip :=
  clip <- VideoFileClip env path ;;
  match clip_duration clip with
  | Some d =>
      match d ?= inject_Z MAX_DURATION with
      | Gt => subclip clip 0 (inject_Z MAX_DURATION)
      | _ => ret clip
      end%Q
  | None => raise (LibraryError "TypeError" "duration is None")
  end.

Definition create_background (env : Env) (duration : option Q) : M Clip :=
  let bg_path := Py.path_join (ASSETS_DIR env) "fond_short.png" in
  bg <- (if path_exists env bg_path
         then (img <- ImageClip env bg_path ;; resize_to img RESOLUTION)
         else ret (ColorClip RESOLUTION 0 0 0)) ;;
  ret (set_duration bg duration).

Definition extract_webcam (clip : Clip) : M Clip :=
  let cam := crop clip
               (Some (inject_Z (x1 WEBCAM_COORDS))) (Some (inject_Z (y1 WEBCAM_COORDS)))
               (Some (inject_Z (x2 WEBCAM_COORDS))) (Some (inject_Z (y2 WEBCAM_COORDS)))
               None None None None in
  height <- int_of_product (snd RESOLUTION) ratio_033 ;;
  cam <- resize_height cam height ;;
  let x_pos := (fst RESOLUTION - clip_w cam) / 2 in
  ret (set_position cam (Px x_pos, Px 0)).

Definition extract_gameplay (clip : Clip) : M Clip :=
  let game := crop clip
                None (Some (inject_Z (y2 WEBCAM_COORDS)))
                None (Some (inject_Z (clip_h clip)))
                None None None None in
  height <- int_of_product (snd RESOLUTION) ratio_067 ;;
  game <- resize_height game height ;;
  let x_pos := (fst RESOLUTION - clip_w game) / 2 in
  y_pos <- int_of_product (snd RESOLUTION) ratio_033 ;;
  ret (set_position game (Px x_pos, Px y_pos)).

Definition full_screen_clip (clip : Clip) : M Clip :=
  c <- resize_height clip (snd RESOLUTION) ;;
  let c := crop c None None None None
             (Some (inject_Z (fst RESOLUTION))) (Some (inject_Z (snd RESOLUTION)))
             (Some (inject_Z (clip_w c) / 2)%Q) (Some (inject_Z (clip_h c) / 2)%Q) in
  ret (set_position c (Px 0, Px 0)).

Definition create_text_clip (env : Env) (text font : string) (size : Z)
    (stroke : Q) (y_pos : coord) (duration : option Q) : M Clip :=
  txt <- try_except_Exception
           (TextClip env text size (Some font) stroke)
           (fun _ => TextClip env text size None stroke) ;;
  ret (set_duration (set_position txt (Center, y_pos)) duration).

Definition append_end_sequence (env : Env) (main_clip : video) : M video :=
  let end_path := Py.path_join (ASSETS_DIR env) "fin_de_short.mp4" in
  if path_exists env end_path
  then
    end_clip <- VideoFileClip env end_path ;;
    end_clip <- resize_to end_clip RESOLUTION ;;
    ret (concatenate_videoclips main_clip end_clip)
  else ret main_clip.

(** *** Face detection on the first frame, inside the webcam zone *)

(** The clamp of a rectangle to a frame of [w] by [h] pixels. *)
Definition clamp_zone (w h : Z) (r : Rect) : Rect :=
  mkRect (Z.max 0 (Z.min (w - 1) (x1 r)))
         (Z.max 0 (Z.min (h - 1) (y1 r)))
         (Z.max 0 (Z.min w (x2 r)))
         (Z.max 0 (Z.min h (y2 r))).

(** The test for an invalid zone. *)
Definition degenerate (r : Rect) : bool :=
  (x2 r <=? x1 r) || (y2 r <=? y1 r).

Definition is_face_in_webcam_zone (env : Env) (clip : Clip) : M bool :=
  match cv2 env with
  | None =>
      raise (RuntimeError ("OpenCV (cv2) n'est pas installe. Import error: "
                             ++ cv2_import_error env))
  | Some cv =>
      let cascade_path :=
        Py.path_join (haarcascades cv) "haarcascade_frontalface_default.xml" in
      if negb (path_exists env cascade_path)
      then raise (RuntimeError ("Haarcascade introuvable a " ++ cascade_path))
      else
        frame0 <- try_except_Exception
                    (get_frame0 env clip)
                    (fun e => raise (RuntimeError
                       ("Impossible d'extraire la premiere frame: " ++ exn_msg e))) ;;
        let h := shape0 frame0 in
        let w := shape1 frame0 in
        let c := clamp_zone w h WEBCAM_COORDS in
        if degenerate c
        then ret false
        else
          faces <- detectMultiScale cv c ;;
          ret (0 <? faces)%nat
  end.

(** *** The exposed entry point *)

(** The branch on the classifier's answer: the composed visual. *)
Definition compose (clip bg title_clip streamer_clip : Clip)
    (face_in_webcam : bool) : M Composite :=
  if face_in_webcam
  then
    webcam <- extract_webcam clip ;;
    gameplay <- extract_gameplay clip ;;
    let overlays := [gameplay; webcam; title_clip; streamer_clip] in
    ret (set_audio (CompositeVideoClip ([bg] ++ overlays)%list RESOLUTION)
           (clip_audio clip))
  else
    gameplay_full <- full_screen_clip clip ;;
    let overlays := [gameplay_full; title_clip; streamer_clip] in
    ret (set_audio (CompositeVideoClip overlays RESOLUTION) (clip_audio clip)).

Definition process_gameplay_clip (env : Env) (input_path output_path : string)
    (max_duration_seconds : Z) (clip_data : list (string * string)) : M string :=
  clip <- load_clip env input_path ;;
  let duration := clip_duration clip in
  face_in_webcam <- try_except_RuntimeError
                      (is_face_in_webcam_zone env clip)
                      (fun e => close (VClip clip) ;;; raise e) ;;
  bg <- create_background env duration ;;
  let title_text := Py.dict_get clip_data "title" "Titre du clip" in
  let streamer := Py.dict_get clip_data "broadcaster_name" "Streamer" in
  title_clip <- create_text_clip env title_text "Roboto-Bold.ttf" 70 (3 # 2)
                  Top duration ;;
  streamer_clip <- create_text_clip env ("@" ++ streamer) "Roboto-Regular.ttf" 40
                     (1 # 2) Bottom duration ;;
  composed <- compose clip bg title_clip streamer_clip face_in_webcam ;;
  final <- append_end_sequence env (VComposite composed) ;;
  write_videofile env final output_path 30 "libx264" "aac" ;;;
  close (VClip clip) ;;;
  close (VComposite composed) ;;;
  close final ;;;
  ret output_path.

(** ** Example environments

    Concrete runs on which the theorems below are exercised. *)

Module Fixtures.

Definition cascade_file : string :=
  "/opt/cv2/data/haarcascade_frontalface_default.xml".

(** An OpenCV installation whose cascade finds [n] faces wherever it is
    asked to look. *)
Definition opencv (n : nat) : Cv2 := mkCv2 "/opt/cv2/data" (fun _ => n).

(** A machine with no optional asset, on which [in.mp4] is a [w] by [h]
    recording of [d] seconds with sound. *)
Definition machine (cv : option Cv2) (w h : Z) (d : Q) (decodes writable : bool) : Env :=
  mkEnv "scripts"
    (fun p => String.eqb p cascade_file)
    (fun p => if String.eqb p "in.mp4"
              then Some (mkVideoInfo w h d (Some d) decodes) else None)
    (fun _ => None)
    (fun _ _ _ => Some (600, 90))
    cv "No module named 'cv2'"
    (fun _ => writable).

(** The same machine with the cascade file deleted. *)
Definition machine_without_cascade (w h : Z) (d : Q) : Env :=
  mkEnv "scripts"
    (fun _ => false)
    (fun p => if String.eqb p "in.mp4"
              then Some (mkVideoInfo w h d (Some d) true) else None)
    (fun _ => None)
    (fun _ _ _ => Some (600, 90))
    (Some (opencv 1)) ""
    (fun _ => true).

(** The clip [VideoFileClip("in.mp4")] on such a machine. *)
Definition recording (w h : Z) (d : Q) : Clip :=
  mkClip (FromFile "in.mp4") w h (Some d) (Some (mkAudio "in.mp4" d)) (Px 0, Px 0).

End Fixtures.

(** ** Predicates of the specification *)

(** A rectangle that obeys the invariant [0 <= x1 < x2 <= w] and
    [0 <= y1 < y2 <= h] of a frame of [w] by [h] pixels. *)
Definition in_bounds (w h : Z) (r : Rect) : Prop :=
  0 <= x1 r < x2 r /\ x2 r <= w /\ 0 <= y1 r < y2 r /\ y2 r <= h.

(** A rectangle strictly inside the frame. *)
Definition strictly_inside (w h : Z) (r : Rect) : Prop :=
  0 < x1 r < x2 r /\ x2 r < w /\ 0 < y1 r < y2 r /\ y2 r < h.

(** A computation that leaves no event and whose outcome does not depend
    on the trace so far. *)
Definition silent {A} (m : M A) : Prop :=
  exists r, forall tr, m tr = (r, tr).

(** The composed visual inside a rendered video. *)
Definition main_of (v : video) : video :=
  match v with
  | VConcat m _ => m
  | _ => v
  end.

(** The objects closed in a trace, in order. *)
Fixpoint closed (tr : list event) : list video :=
  match tr with
  | [] => []
  | EvClose v :: rest => v :: closed rest
  | _ :: rest => closed rest
  end.

(** The detector calls of a trace. *)
Fixpoint detections (tr : list event) : list Rect :=
  match tr with
  | [] => []
  | EvDetect r :: rest => r :: detections rest
  | _ :: rest => detections rest
  end.

(** The states of the classifier's prerequisites. *)
Definition cascade_path_of (cv : Cv2) : string :=
  Py.path_join (haarcascades cv) "haarcascade_frontalface_default.xml".

Definition detector_ready (env : Env) : Prop :=
  exists cv, cv2 env = Some cv /\ path_exists env (cascade_path_of cv) = true.

Definition cascade_missing (env : Env) : Prop :=
  exists cv, cv2 env = Some cv /\ path_exists env (cascade_path_of cv) = false.

Definition frame0_decodes (env : Env) (clip : Clip) : Prop :=
  get_frame0 env clip = ret (mkFrame (clip_h clip) (clip_w clip)).

Definition frame0_fails (env : Env) (clip : Clip) : Prop :=
  exists e, get_frame0 env clip = raise e.

(** The source has aspect ratio [a : b]. *)
Definition aspect_ratio (clip : Clip) (a b : Z) : Prop :=
  exists k, 0 < k /\ clip_w clip = a * k /\ clip_h clip = b * k.

(** The layer covers the target frame exactly, from its top-left corner. *)
Definition fills_target (layer : Clip) : Prop :=
  clip_w layer = fst RESOLUTION /\ clip_h layer = snd RESOLUTION /\
  clip_pos layer = (Px 0, Px 0).

(** The intermediate values of a run that returns. *)
Record run_values : Type := mkRun {
  rv_clip : Clip;
  rv_face : bool;
  rv_detector : list event;
  rv_bg : Clip;
  rv_title : Clip;
  rv_streamer : Clip;
  rv_composed : Composite;
  rv_final : video
}.

(** What a run that started on trace [tr] and ended on trace [tr'] has
    rendered: the trimmed clip, the classifier's answer, the background and
    the two text layers it built, and the plan it composed from them. *)
Definition rendered_plan (env : Env) (input_path output_path : string)
    (clip_data : list (string * string)) (tr tr' : list event) : Prop :=
  exists clip face evs bg title caption plan final,
    load_clip env input_path tr = (Ok clip, tr) /\
    is_face_in_webcam_zone env clip tr = (Ok face, (tr ++ evs)%list) /\
    (forall t, create_background env (clip_duration clip) t = (Ok bg, t)) /\
    (forall t, create_text_clip env (Py.dict_get clip_data "title" "Titre du clip")
                 "Roboto-Bold.ttf" 70 (3 # 2) Top (clip_duration clip) t
               = (Ok title, t)) /\
    (forall t, create_text_clip env
                 ("@" ++ Py.dict_get clip_data "broadcaster_name" "Streamer")
                 "Roboto-Regular.ttf" 40 (1 # 2) Bottom (clip_duration clip) t
               = (Ok caption, t)) /\
    In (EvWrite output_path final 30 "libx264" "aac") tr' /\
    main_of final = VComposite plan /\
    comp_audio plan = clip_audio clip /\
    if face
    then exists gameplay webcam,
           (forall t, extract_gameplay clip t = (Ok gameplay, t)) /\
           (forall t, extract_webcam clip t = (Ok webcam, t)) /\
           layers plan = [bg; gameplay; webcam; title; caption] /\
           length (layers plan) = 5%nat
    else exists full_bleed,
           (forall t, full_screen_clip clip t = (Ok full_bleed, t)) /\
           layers plan = [full_bleed; title; caption] /\
           length (layers plan) = 3%nat /\
           ~ In bg (layers plan).

(** The duration cap as a number of seconds. *)
Definition cap : Q := inject_Z MAX_DURATION.

(** The same environment with another encoder behaviour. *)
Definition with_encoder (env : Env) (writable : string -> bool) : Env :=
  mkEnv (script_dir env) (path_exists env) (probe env) (image_size env)
    (text_size env) (cv2 env) (cv2_import_error env) writable.

(** Where the outro is looked for. *)
Definition end_path (env : Env) : string :=
  Py.path_join (ASSETS_DIR env) "fin_de_short.mp4".

(** The render calls of a trace, in order. *)
Fixpoint writes (tr : list event) : list event :=
  match tr with
  | [] => []
  | EvWrite p v fps c ac :: rest => EvWrite p v fps c ac :: writes rest
  | _ :: rest => writes rest
  end.

(** The rows of the target frame a layer covers: from its vertical
    position down to that position plus its height. *)
Definition top_row (layer : Clip) : option Z :=
  match snd (clip_pos layer) with
  | Px y => Some y
  | _ => None
  end.

Definition bottom_row (layer : Clip) : option Z :=
  match snd (clip_pos layer) with
  | Px y => Some (y + clip_h layer)
  | _ => None
  end.

(** Where the background image is looked for. *)
Definition bg_path (env : Env) : string :=
  Py.path_join (ASSETS_DIR env) "fond_short.png".

(** A machine with the optional assets in place, but without the two
    Roboto fonts: text renders in the default font only. *)
Module Studio.

Definition background_file : string := "scripts/../assets/fond_short.png".
Definition outro_file : string := "scripts/../assets/fin_de_short.mp4".

Definition machine (faces : nat) (w h : Z) (d : Q) : Env :=
  mkEnv "scripts"
    (fun p => String.eqb p Fixtures.cascade_file
              || String.eqb p background_file || String.eqb p outro_file)
    (fun p => if String.eqb p "in.mp4"
              then Some (mkVideoInfo w h d (Some d) true)
              else if String.eqb p outro_file
                   then Some (mkVideoInfo 1280 720 (3 # 1) (Some (3 # 1)%Q) true)
                   else None)
    (fun p => if String.eqb p background_file then Some (2160, 3840) else None)
    (fun _ font _ => match font with Some _ => None | None => Some (600, 90) end)
    (Some (Fixtures.opencv faces)) ""
    (fun _ => true).

End Studio.

(** * Theorems *)

(** ** Clamping of the webcam zone *)

Section Clamp.

Variables w h : Z.

Lemma clamp_zone_idem (r : Rect) :
  clamp_zone w h (clamp_zone w h r) = clamp_zone w h r.
Proof.
  unfold clamp_zone; cbn [x1 y1 x2 y2]; f_equal; lia.
Qed.

Lemma clamp_zone_fixes_in_bounds (r : Rect) :
  in_bounds w h r -> clamp_zone w h r = r.
Proof.
  destruct r as [a b c d]; unfold in_bounds, clamp_zone; cbn [x1 y1 x2 y2].
  intros (Hx & Hx' & Hy & Hy'); f_equal; lia.
Qed.

Lemma strictly_inside_in_bounds (r : Rect) :
  strictly_inside w h r -> in_bounds w h r.
Proof. unfold strictly_inside, in_bounds; lia. Qed.

(** The webcam zone clamped to a frame with at least one pixel is never
    empty and never sticks out. *)
Lemma clamp_webcam_in_bounds :
  1 <= w -> 1 <= h -> in_bounds w h (clamp_zone w h WEBCAM_COORDS).
Proof.
  intros Hw Hh; unfold in_bounds, clamp_zone, WEBCAM_COORDS; cbn [x1 y1 x2 y2]; lia.
Qed.

(** The clamped webcam zone is invalid exactly on a frame without pixels. *)
Lemma degenerate_webcam_iff :
  degenerate (clamp_zone w h WEBCAM_COORDS) = true <-> w <= 0 \/ h <= 0.
Proof.
  unfold degenerate, clamp_zone, WEBCAM_COORDS; cbn [x1 y1 x2 y2].
  rewrite orb_true_iff, !Z.leb_le; lia.
Qed.

End Clamp.

(** C6. Clamping a rectangle to a frame of positive size is idempotent,
    and it leaves every rectangle strictly inside the frame unchanged. *)
Theorem clamp_zone_idempotent_and_identity_inside :
  forall (w h : Z) (r : Rect),
    0 < w -> 0 < h ->
    clamp_zone w h (clamp_zone w h r) = clamp_zone w h r /\
    (strictly_inside w h r -> clamp_zone w h r = r).
Proof.
  intros w h r _ _; split.
  - apply clamp_zone_idem.
  - intros Hin; apply clamp_zone_fixes_in_bounds, strictly_inside_in_bounds, Hin.
Qed.

Lemma clamp_zone_idempotent_and_identity_inside_witness :
  clamp_zone 1920 1080 (clamp_zone 1920 1080 (mkRect (-3) 8 5000 282))
    = clamp_zone 1920 1080 (mkRect (-3) 8 5000 282) /\
  clamp_zone 1920 1080 WEBCAM_COORDS = WEBCAM_COORDS.
Proof.
  split.
  - apply (clamp_zone_idempotent_and_identity_inside 1920 1080 (mkRect (-3) 8 5000 282));
      lia.
  - apply (clamp_zone_idempotent_and_identity_inside 1920 1080 WEBCAM_COORDS);
      [lia | lia | unfold strictly_inside, WEBCAM_COORDS; cbn; lia].
Defined.

(** ** The execution monad *)

Lemma bind_Ok_inv {A B} (m : M A) (k : A -> M B) tr b tr' :
  bind m k tr = (Ok b, tr') ->
  exists a tr1, m tr = (Ok a, tr1) /\ k a tr1 = (Ok b, tr').
Proof.
  unfold bind; destruct (m tr) as [[a | e] tr1]; intros H.
  - exists a, tr1; split; [reflexivity | exact H].
  - discriminate.
Qed.

Lemma silent_ret {A} (a : A) : silent (ret a).
Proof. exists (Ok a); reflexivity. Qed.

Lemma silent_raise {A} (e : exn) : silent (@raise A e).
Proof. exists (Raise e); reflexivity. Qed.

Lemma silent_bind {A B} (m : M A) (k : A -> M B) :
  silent m -> (forall a, silent (k a)) -> silent (bind m k).
Proof.
  intros [r Hm] Hk; destruct r as [a | e].
  - destruct (Hk a) as [r' Hr']; exists r'; intros tr.
    unfold bind; rewrite Hm; apply Hr'.
  - exists (Raise e); intros tr; unfold bind; rewrite Hm; reflexivity.
Qed.

Lemma silent_try_except_Exception {A} (m : M A) (handler : exn -> M A) :
  silent m -> (forall e, silent (handler e)) -> silent (try_except_Exception m handler).
Proof.
  intros [r Hm] Hh; destruct r as [a | e].
  - exists (Ok a); intros tr; unfold try_except_Exception; rewrite Hm; reflexivity.
  - destruct (Hh e) as [r' Hr']; exists r'; intros tr.
    unfold try_except_Exception; rewrite Hm; apply Hr'.
Qed.

(** A silent computation that returns once returns always, and adds
    nothing to the trace. *)
Lemma silent_run {A} (m : M A) r tr tr' :
  silent m -> m tr = (r, tr') -> tr' = tr /\ forall tr0, m tr0 = (r, tr0).
Proof.
  intros [r0 Hm] H; rewrite Hm in H; inversion H; subst; split; [reflexivity | exact Hm].
Qed.

Ltac silent_step :=
  match goal with
  | |- silent (ret _) => apply silent_ret
  | |- silent (raise _) => apply silent_raise
  | |- silent (bind _ _) => apply silent_bind; [| intros ? ]
  | |- silent (try_except_Exception _ _) =>
      apply silent_try_except_Exception; [| intros ? ]
  end.

(** ** The first frame *)

Lemma get_frame0_cases (env : Env) (clip : Clip) :
  frame0_decodes env clip \/ frame0_fails env clip.
Proof.
  unfold frame0_decodes, frame0_fails, get_frame0.
  destruct (root_file (clip_src clip)) as [p |]; [| left; reflexivity].
  destruct (probe env p) as [vi |]; [| right; eexists; reflexivity].
  destruct (vi_frame0 vi); [left; reflexivity | right; eexists; reflexivity].
Qed.

Lemma frame0_decodes_not_fails (env : Env) (clip : Clip) :
  frame0_decodes env clip -> frame0_fails env clip -> False.
Proof.
  unfold frame0_decodes, frame0_fails; intros Hd [e He].
  rewrite Hd in He.
  assert (H : ret (mkFrame (clip_h clip) (clip_w clip)) [] = @raise Frame e [])
    by (rewrite He; reflexivity).
  discriminate H.
Qed.

(** ** The classifier, case by case *)

Section Classifier.

Variable env : Env.
Variable clip : Clip.

Let zone : Rect := clamp_zone (clip_w clip) (clip_h clip) WEBCAM_COORDS.

Lemma classifier_without_cv2 tr :
  cv2 env = None ->
  exists msg, is_face_in_webcam_zone env clip tr = (Raise (RuntimeError msg), tr).
Proof.
  intros H; unfold is_face_in_webcam_zone; rewrite H; eexists; reflexivity.
Qed.

Lemma classifier_without_cascade tr :
  cascade_missing env ->
  exists msg, is_face_in_webcam_zone env clip tr = (Raise (RuntimeError msg), tr).
Proof.
  intros (cv & Hcv & Hp); unfold is_face_in_webcam_zone, cascade_path_of in *.
  rewrite Hcv, Hp; eexists; reflexivity.
Qed.

Lemma classifier_without_frame tr :
  detector_ready env -> frame0_fails env clip ->
  exists msg, is_face_in_webcam_zone env clip tr = (Raise (RuntimeError msg), tr).
Proof.
  intros (cv & Hcv & Hp) [e He]; unfold is_face_in_webcam_zone, cascade_path_of in *.
  rewrite Hcv, Hp, He; eexists; reflexivity.
Qed.

Lemma classifier_degenerate tr :
  detector_ready env -> frame0_decodes env clip ->
  degenerate zone = true ->
  is_face_in_webcam_zone env clip tr = (Ok false, tr).
Proof.
  intros (cv & Hcv & Hp) Hf Hd; unfold is_face_in_webcam_zone, cascade_path_of in *.
  rewrite Hcv, Hp, Hf; cbn; subst zone; rewrite Hd; reflexivity.
Qed.

Lemma classifier_detects tr :
  forall cv, cv2 env = Some cv -> path_exists env (cascade_path_of cv) = true ->
  frame0_decodes env clip ->
  degenerate zone = false ->
  is_face_in_webcam_zone env clip tr
    = (Ok (0 <? faces_in cv zone)%nat, (tr ++ [EvDetect zone])%list).
Proof.
  intros cv Hcv Hp Hf Hd; unfold is_face_in_webcam_zone, cascade_path_of in *.
  rewrite Hcv, Hp, Hf; cbn; subst zone; rewrite Hd; reflexivity.
Qed.

(** Every run of the classifier is one of the five above. *)
Lemma classifier_cases tr :
  (exists msg, is_face_in_webcam_zone env clip tr = (Raise (RuntimeError msg), tr)
               /\ (cv2 env = None \/ cascade_missing env
                   \/ (detector_ready env /\ frame0_fails env clip)))
  \/ (is_face_in_webcam_zone env clip tr = (Ok false, tr)
      /\ detector_ready env /\ frame0_decodes env clip /\ degenerate zone = true)
  \/ (exists cv, is_face_in_webcam_zone env clip tr
                   = (Ok (0 <? faces_in cv zone)%nat, (tr ++ [EvDetect zone])%list)
                 /\ cv2 env = Some cv
                 /\ detector_ready env /\ frame0_decodes env clip
                 /\ degenerate zone = false).
Proof.
  destruct (cv2 env) as [cv |] eqn:Hcv.
  2:{ left. destruct (classifier_without_cv2 tr Hcv) as [msg Hm].
      exists msg; split; [exact Hm | left; reflexivity]. }
  destruct (path_exists env (cascade_path_of cv)) eqn:Hp.
  2:{ left. assert (Hm : cascade_missing env) by (exists cv; split; assumption).
      destruct (classifier_without_cascade tr Hm) as [msg Hr].
      exists msg; split; [exact Hr | right; left; exact Hm]. }
  assert (Hready : detector_ready env) by (exists cv; split; assumption).
  destruct (get_frame0_cases env clip) as [Hf | Hf].
  2:{ left. destruct (classifier_without_frame tr Hready Hf) as [msg Hr].
      exists msg; split; [exact Hr | right; right; split; assumption]. }
  destruct (degenerate zone) eqn:Hd.
  - right; left; split; [apply classifier_degenerate; assumption |].
    repeat split; assumption.
  - right; right; exists cv; split; [apply classifier_detects; assumption |].
    repeat split; assumption.
Qed.

(** A missing prerequisite is a [RuntimeError], whatever the frame. *)
Lemma classifier_raises tr :
  cv2 env = None \/ cascade_missing env \/ frame0_fails env clip ->
  exists msg, is_face_in_webcam_zone env clip tr = (Raise (RuntimeError msg), tr).
Proof.
  intros [H | [H | H]].
  - apply classifier_without_cv2, H.
  - apply classifier_without_cascade, H.
  - destruct (classifier_cases tr)
      as [(msg & Hr & _) | [(Hr & _ & Hf & _) | (cv & _ & _ & _ & Hf & _)]].
    + exists msg; exact Hr.
    + destruct (frame0_decodes_not_fails env clip Hf H).
    + destruct (frame0_decodes_not_fails env clip Hf H).
Qed.

End Classifier.

(** ** What the classifier guarantees *)

(** C2, as amended.  With a ready detector and a decoded first frame, the
    clamped webcam zone is degenerate exactly when the frame has no pixel
    (width or height zero), and on such a frame the classifier returns
    [False] without a detector call and without an error.  A frame
    narrower than [x1 = 5] that is at least one pixel wide is not
    degenerate. *)
Theorem degenerate_zone_is_no_face :
  forall (env : Env) (clip : Clip) (tr : list event),
    detector_ready env ->
    frame0_decodes env clip ->
    let zone := clamp_zone (clip_w clip) (clip_h clip) WEBCAM_COORDS in
    (degenerate zone = true <-> clip_w clip <= 0 \/ clip_h clip <= 0) /\
    (degenerate zone = true ->
     is_face_in_webcam_zone env clip tr = (Ok false, tr)).
Proof.
  intros env clip tr Hready Hframe zone; split.
  - apply degenerate_webcam_iff.
  - intros Hd; apply classifier_degenerate; assumption.
Qed.

Lemma degenerate_zone_is_no_face_witness :
  is_face_in_webcam_zone
    (Fixtures.machine (Some (Fixtures.opencv 1)) 0 100 (10 # 1) true true)
    (Fixtures.recording 0 100 (10 # 1)) [] = (Ok false, []).
Proof.
  apply (degenerate_zone_is_no_face
           (Fixtures.machine (Some (Fixtures.opencv 1)) 0 100 (10 # 1) true true)
           (Fixtures.recording 0 100 (10 # 1)) []).
  - exists (Fixtures.opencv 1); split; reflexivity.
  - reflexivity.
  - reflexivity.
Defined.

(** C2, counterexample.  A frame 3 pixels wide is narrower than
    [WebcamZone.x1 = 5], yet its clamped zone [(2, 8, 3, 100)] is not
    degenerate and the classifier calls the detector on it. *)
Lemma narrow_frame_reaches_detector :
  let env := Fixtures.machine (Some (Fixtures.opencv 0)) 3 100 (10 # 1) true true in
  let clip := Fixtures.recording 3 100 (10 # 1) in
  clip_w clip < x1 WEBCAM_COORDS /\
  detector_ready env /\ frame0_decodes env clip /\
  degenerate (clamp_zone (clip_w clip) (clip_h clip) WEBCAM_COORDS) = false /\
  is_face_in_webcam_zone env clip [] = (Ok false, [EvDetect (mkRect 2 8 3 100)]) /\
  is_face_in_webcam_zone env clip [] <> (Ok false, []).
Proof.
  cbv zeta; repeat split.
  - exists (Fixtures.opencv 0); split; reflexivity.
  - discriminate.
Qed.

(** C9.  The classifier checks the detection module, the cascade file and
    the first frame before it clamps the zone: when one of them is missing
    it raises the [RuntimeError] whatever the frame size, a degenerate one
    included; and a run on a degenerate frame that returns did so with a
    ready detector and a decoded frame, returning [False] without a
    detector call. *)
Theorem prerequisites_checked_before_clamping :
  forall (env : Env) (clip : Clip) (tr : list event),
    degenerate (clamp_zone (clip_w clip) (clip_h clip) WEBCAM_COORDS) = true ->
    (cv2 env = None \/ cascade_missing env \/ frame0_fails env clip ->
     exists msg, is_face_in_webcam_zone env clip tr = (Raise (RuntimeError msg), tr)) /\
    (forall b tr', is_face_in_webcam_zone env clip tr = (Ok b, tr') ->
     b = false /\ tr' = tr /\ detector_ready env /\ frame0_decodes env clip).
Proof.
  intros env clip tr Hd; split.
  - apply classifier_raises.
  - intros b tr' Hrun.
    destruct (classifier_cases env clip tr)
      as [(msg & Hr & _) | [(Hr & Hready & Hf & _) | (cv & _ & _ & _ & _ & Hnd)]].
    + rewrite Hr in Hrun; discriminate.
    + rewrite Hr in Hrun; inversion Hrun; subst; repeat split; assumption.
    + rewrite Hd in Hnd; discriminate.
Qed.

Lemma prerequisites_checked_before_clamping_witness :
  (exists msg,
     is_face_in_webcam_zone
       (Fixtures.machine None 0 0 (10 # 1) true true)
       (Fixtures.recording 0 0 (10 # 1)) [] = (Raise (RuntimeError msg), [])) /\
  (exists msg,
     is_face_in_webcam_zone
       (Fixtures.machine_without_cascade 0 0 (10 # 1))
       (Fixtures.recording 0 0 (10 # 1)) [] = (Raise (RuntimeError msg), [])) /\
  (exists msg,
     is_face_in_webcam_zone
       (Fixtures.machine (Some (Fixtures.opencv 1)) 0 0 (10 # 1) false true)
       (Fixtures.recording 0 0 (10 # 1)) [] = (Raise (RuntimeError msg), [])) /\
  detector_ready (Fixtures.machine (Some (Fixtures.opencv 1)) 0 0 (10 # 1) true true).
Proof.
  repeat split.
  - apply (prerequisites_checked_before_clamping
             (Fixtures.machine None 0 0 (10 # 1) true true)
             (Fixtures.recording 0 0 (10 # 1)) []);
      [reflexivity | left; reflexivity].
  - apply (prerequisites_checked_before_clamping
             (Fixtures.machine_without_cascade 0 0 (10 # 1))
             (Fixtures.recording 0 0 (10 # 1)) []);
      [reflexivity | right; left; exists (Fixtures.opencv 1); split; reflexivity].
  - apply (prerequisites_checked_before_clamping
             (Fixtures.machine (Some (Fixtures.opencv 1)) 0 0 (10 # 1) false true)
             (Fixtures.recording 0 0 (10 # 1)) []);
      [reflexivity | right; right; eexists; reflexivity].
  - apply (prerequisites_checked_before_clamping
             (Fixtures.machine (Some (Fixtures.opencv 1)) 0 0 (10 # 1) true true)
             (Fixtures.recording 0 0 (10 # 1)) [] eq_refl) with (b := false) (tr' := []).
    reflexivity.
Defined.

(** C10.  On a first frame with at least one pixel in each direction,
    every detector call of the classifier is on the clamped zone, and that
    zone satisfies [0 <= x1c < x2c <= w] and [0 <= y1c < y2c <= h]: the
    region handed to the grey-scale conversion and to the detector is a
    non-empty part of the frame. *)
Theorem detector_region_in_bounds :
  forall (env : Env) (clip : Clip) (tr tr' : list event) (r : result bool),
    1 <= clip_w clip -> 1 <= clip_h clip ->
    is_face_in_webcam_zone env clip tr = (r, tr') ->
    exists evs, tr' = (tr ++ evs)%list /\
      forall roi, In roi (detections evs) ->
        roi = clamp_zone (clip_w clip) (clip_h clip) WEBCAM_COORDS /\
        in_bounds (clip_w clip) (clip_h clip) roi.
Proof.
  intros env clip tr tr' r Hw Hh Hrun.
  destruct (classifier_cases env clip tr)
    as [(msg & Hr & _) | [(Hr & _) | (cv & Hr & _)]];
    rewrite Hr in Hrun; inversion Hrun; subst.
  - exists []; split; [symmetry; apply app_nil_r | intros roi []].
  - exists []; split; [symmetry; apply app_nil_r | intros roi []].
  - eexists; split; [reflexivity |].
    cbn; intros roi [<- | []]; split; [reflexivity |].
    apply clamp_webcam_in_bounds; assumption.
Qed.

Lemma detector_region_in_bounds_witness :
  exists evs,
    [EvDetect (mkRect 5 8 542 282)] = ([] ++ evs)%list /\
    forall roi, In roi (detections evs) ->
      roi = clamp_zone 1920 1080 WEBCAM_COORDS /\ in_bounds 1920 1080 roi.
Proof.
  apply (detector_region_in_bounds
           (Fixtures.machine (Some (Fixtures.opencv 1)) 1920 1080 (10 # 1) true true)
           (Fixtures.recording 1920 1080 (10 # 1)) [] _ (Ok true));
    [cbn; lia | cbn; lia | reflexivity].
Defined.

(** ** Geometry *)

Ltac Zify.zify_post_hook ::= Z.to_euclidean_division_equations.

Lemma int_of_product_033 : int_of_product (snd RESOLUTION) ratio_033 = ret 633.
Proof. vm_compute; reflexivity. Qed.

Lemma int_of_product_067 : int_of_product (snd RESOLUTION) ratio_067 = ret 1286.
Proof. vm_compute; reflexivity. Qed.

Lemma int_of_Q_nonneg (a b : Z) :
  0 <= a -> 0 < b -> Py.int_of_Q (a # Z.to_pos b) = a / b.
Proof.
  intros Ha Hb; unfold Py.int_of_Q; cbn [Qnum Qden].
  rewrite Z2Pos.id by exact Hb; apply Z.quot_div_nonneg; lia.
Qed.

Lemma slice_within (n a b : Z) :
  0 <= a -> a <= b -> b <= n -> Py.slice n a b = (a, b).
Proof.
  intros Ha Hab Hb; unfold Py.slice, Py.slice_index.
  destruct (Z.ltb_spec a 0); [lia |].
  destruct (Z.ltb_spec b 0); [lia |].
  f_equal; lia.
Qed.

(** A resize by height of a non-empty clip to a non-empty size succeeds,
    and the width follows the aspect ratio, truncated. *)
Lemma resize_height_spec (clip : Clip) (height : Z) :
  0 < clip_w clip -> 0 < clip_h clip -> 0 < height ->
  clip_h clip <= clip_w clip * height ->
  resize_height clip height
  = ret (mkClip (Resized (clip_src clip) (clip_w clip * height / clip_h clip) height)
           (clip_w clip * height / clip_h clip) height
           (clip_duration clip) (clip_audio clip) (clip_pos clip)).
Proof.
  intros Hw Hh Hht Hge; unfold resize_height, resizer.
  assert (1 <= clip_w clip * height / clip_h clip)
    by (apply Z.div_le_lower_bound; lia).
  rewrite int_of_Q_nonneg by lia.
  destruct (Z.eqb_spec (clip_h clip) 0); [lia |].
  repeat match goal with
  | |- context [?a <=? ?b] => destruct (Z.leb_spec a b); [lia |]
  end.
  reflexivity.
Qed.

(** The crop to the webcam zone of a frame that reaches into the zone. *)
Lemma crop_webcam_zone (clip : Clip) :
  5 < clip_w clip -> 8 < clip_h clip ->
  crop clip (Some (inject_Z (x1 WEBCAM_COORDS))) (Some (inject_Z (y1 WEBCAM_COORDS)))
    (Some (inject_Z (x2 WEBCAM_COORDS))) (Some (inject_Z (y2 WEBCAM_COORDS)))
    None None None None
  = mkClip (Cropped (clip_src clip) 5 8 (Z.min (clip_w clip) 542) (Z.min (clip_h clip) 282))
      (Z.min (clip_w clip) 542 - 5) (Z.min (clip_h clip) 282 - 8)
      (clip_duration clip) (clip_audio clip) (clip_pos clip).
Proof.
  intros Hw Hh; unfold crop; cbn.
  unfold Py.slice_index; cbn.
  replace (Z.min 5 (clip_w clip)) with 5 by lia.
  replace (Z.min 8 (clip_h clip)) with 8 by lia.
  replace (Z.max 5 (Z.min 542 (clip_w clip))) with (Z.min (clip_w clip) 542) by lia.
  replace (Z.max 8 (Z.min 282 (clip_h clip))) with (Z.min (clip_h clip) 282) by lia.
  reflexivity.
Qed.

(** The bounds [x_center - width / 2] and [x_center + width / 2] around
    the centre [n / 2] of an axis at least [size] long. *)
Lemma center_crop_axis (n size : Z) :
  0 < size -> size <= n ->
  crop_axis n None None (Some (inject_Z size)) (Some (inject_Z n / 2)%Q)
  = ((n - size) / 2, (n - size) / 2 + size).
Proof.
  intros Hs Hn; unfold crop_axis.
  assert (Ht : Py.truthy (Some (inject_Z n / 2)%Q) = true).
  { unfold Py.truthy, inject_Z, Qdiv, Qmult, Qinv; cbn [Qnum Qden].
    destruct (Z.eqb_spec (n * 1) 0); [lia | reflexivity]. }
  cbv iota beta; rewrite Ht; clear Ht.
  unfold Py.or_default, Py.truthy, Py.int_of_Q, inject_Z, Qdiv, Qmult, Qinv, Qminus, Qplus, Qopp;
    cbn [Qnum Qden].
  change (Z.pos (1 * 2)) with 2.
  f_equal.
  - destruct (Z.eqb_spec (n * 1 * 2 + - (size * 1) * 2) 0) as [E | E];
      cbn [negb Qnum Qden]; change (Z.pos (1 * 2 * (1 * 2))) with 4; lia.
  - destruct (Z.eqb_spec (n * 1 * 2 + size * 1 * 2) 0) as [E | E];
      cbn [negb Qnum Qden]; change (Z.pos (1 * 2 * (1 * 2))) with 4; lia.
Qed.

(** The webcam layer of a source that reaches into the webcam zone. *)
Lemma extract_webcam_spec (clip : Clip) (tr : list event) :
  5 < clip_w clip -> 8 < clip_h clip ->
  let cw := Z.min (clip_w clip) 542 - 5 in
  let ch := Z.min (clip_h clip) 282 - 8 in
  extract_webcam clip tr
  = (Ok (mkClip
           (Resized (Cropped (clip_src clip) 5 8 (Z.min (clip_w clip) 542)
                       (Z.min (clip_h clip) 282))
              (cw * 633 / ch) 633)
           (cw * 633 / ch) 633 (clip_duration clip) (clip_audio clip)
           (Px ((1080 - cw * 633 / ch) / 2), Px 0)), tr).
Proof.
  intros Hw Hh cw ch; unfold extract_webcam.
  rewrite crop_webcam_zone, int_of_product_033 by assumption.
  unfold bind at 1; unfold ret at 1.
  rewrite resize_height_spec by (cbn [clip_w clip_h]; lia).
  reflexivity.
Qed.

(** The full-bleed layer of a source whose width, once the height is
    scaled to 1920, is at least 1080. *)
Lemma full_screen_clip_spec (clip : Clip) (tr : list event) :
  0 < clip_w clip -> 0 < clip_h clip ->
  1080 * clip_h clip <= 1920 * clip_w clip ->
  let sw := clip_w clip * 1920 / clip_h clip in
  let left := (sw - 1080) / 2 in
  full_screen_clip clip tr
  = (Ok (mkClip
           (Cropped (Resized (clip_src clip) sw 1920) left 0 (left + 1080) 1920)
           1080 1920 (clip_duration clip) (clip_audio clip) (Px 0, Px 0)), tr).
Proof.
  intros Hw Hh Hwide sw left; unfold full_screen_clip.
  change (snd RESOLUTION) with 1920; change (fst RESOLUTION) with 1080.
  rewrite resize_height_spec by lia.
  unfold bind at 1; unfold ret at 1; cbn [clip_w clip_h].
  fold sw.
  assert (Hsw : 1080 <= sw) by (apply Z.div_le_lower_bound; lia).
  unfold crop; cbn [clip_w clip_h clip_src clip_duration clip_audio clip_pos].
  rewrite (center_crop_axis sw 1080) by lia.
  rewrite (center_crop_axis 1920 1920) by lia.
  fold left; change ((1920 - 1920) / 2) with 0; change (0 + 1920) with 1920.
  rewrite (slice_within sw left (left + 1080)) by (subst left; lia).
  rewrite (slice_within 1920 0 1920) by lia.
  unfold ret, set_position; cbn [clip_w clip_h clip_src clip_duration clip_audio clip_pos].
  replace (left + 1080 - left) with 1080 by lia.
  reflexivity.
Qed.

(** Sources at least as wide as 9:16 get a full-bleed layer of exactly
    1080 by 1920 at the origin, cropped evenly on both sides. *)
Lemma full_screen_clip_fills_when_wide (clip : Clip) (tr : list event) :
  0 < clip_w clip -> 0 < clip_h clip ->
  1080 * clip_h clip <= 1920 * clip_w clip ->
  exists layer left,
    full_screen_clip clip tr = (Ok layer, tr) /\
    fills_target layer /\
    clip_src layer
    = Cropped (Resized (clip_src clip) (clip_w clip * 1920 / clip_h clip) 1920)
        left 0 (left + 1080) 1920 /\
    0 <= (clip_w clip * 1920 / clip_h clip - (left + 1080)) - left <= 1.
Proof.
  intros Hw Hh Hwide; eexists; exists ((clip_w clip * 1920 / clip_h clip - 1080) / 2).
  split; [apply full_screen_clip_spec; assumption |].
  split; [repeat split |].
  split; [reflexivity | cbn [clip_src]; lia].
Qed.

(** The four aspect ratios 16:9, 4:3, 1:1 and 9:16 are wide enough. *)
Lemma full_screen_clip_standard_ratios (clip : Clip) (tr : list event) :
  aspect_ratio clip 16 9 \/ aspect_ratio clip 4 3 \/
  aspect_ratio clip 1 1 \/ aspect_ratio clip 9 16 ->
  exists layer, full_screen_clip clip tr = (Ok layer, tr) /\ fills_target layer.
Proof.
  intros H.
  assert (Hdims : 0 < clip_w clip /\ 0 < clip_h clip
                  /\ 1080 * clip_h clip <= 1920 * clip_w clip)
    by (destruct H as [H | [H | [H | H]]]; destruct H as (k & Hk & Hw & Hh); lia).
  destruct Hdims as (Hw & Hh & Hwide).
  destruct (full_screen_clip_fills_when_wide clip tr Hw Hh Hwide)
    as (layer & left & Hrun & Hfill & _).
  exists layer; split; assumption.
Qed.

(** ** The webcam and full-bleed layers *)

(** C3, as amended.  For every source frame that reaches into the webcam
    zone (wider than 5 and taller than 8 pixels) the webcam layer is
    built, its height is [int(1920 * 0.33) = 633] (the product truncated,
    not rounded), its width is the width of the crop scaled by the same
    factor and truncated, its horizontal position is
    [(1080 - width) // 2], which centres it in the target width to within
    one pixel, and its vertical position is 0. *)
Theorem webcam_layer_geometry :
  forall (clip : Clip) (tr : list event),
    5 < clip_w clip -> 8 < clip_h clip ->
    exists cam,
      extract_webcam clip tr = (Ok cam, tr) /\
      Py.int_of_float (PrimFloat.mul (Py.float_of_int (snd RESOLUTION)) ratio_033)
        = Some (clip_h cam) /\
      clip_h cam = 633 /\
      clip_w cam = (Z.min (clip_w clip) 542 - 5) * 633 / (Z.min (clip_h clip) 282 - 8) /\
      clip_pos cam = (Px ((fst RESOLUTION - clip_w cam) / 2), Px 0) /\
      0 <= fst RESOLUTION - clip_w cam - 2 * ((fst RESOLUTION - clip_w cam) / 2) <= 1.
Proof.
  intros clip tr Hw Hh; eexists; split; [apply extract_webcam_spec; assumption |].
  cbn [clip_h clip_w clip_pos]; change (fst RESOLUTION) with 1080.
  split; [vm_compute; reflexivity |].
  split; [reflexivity |].
  split; [reflexivity |].
  split; [reflexivity | lia].
Qed.

Lemma webcam_layer_geometry_witness :
  exists cam,
    extract_webcam (Fixtures.recording 1920 1080 (10 # 1)) [] = (Ok cam, []) /\
    Py.int_of_float (PrimFloat.mul (Py.float_of_int (snd RESOLUTION)) ratio_033)
      = Some (clip_h cam) /\
    clip_h cam = 633 /\
    clip_w cam = (Z.min 1920 542 - 5) * 633 / (Z.min 1080 282 - 8) /\
    clip_pos cam = (Px ((fst RESOLUTION - clip_w cam) / 2), Px 0) /\
    0 <= fst RESOLUTION - clip_w cam - 2 * ((fst RESOLUTION - clip_w cam) / 2) <= 1.
Proof.
  apply (webcam_layer_geometry (Fixtures.recording 1920 1080 (10 # 1)) []); cbn; lia.
Defined.

(** C3, counterexample.  On a 1920 by 1080 source the webcam layer is 633
    pixels high, while [round(1920 * 0.33)] is 634. *)
Lemma webcam_layer_height_not_rounded :
  exists cam,
    extract_webcam (Fixtures.recording 1920 1080 (10 # 1)) [] = (Ok cam, []) /\
    Py.round_of_float (PrimFloat.mul (Py.float_of_int (snd RESOLUTION)) ratio_033)
      = Some 634 /\
    clip_h cam = 633 /\
    clip_h cam <> 634.
Proof.
  eexists; split; [vm_compute; reflexivity |].
  split; [vm_compute; reflexivity |].
  split; [reflexivity | discriminate].
Qed.

(** C4, at a source narrower than 9:16.  A 1080 by 2160 portrait
    recording is scaled to 960 by 1920; the centred crop asks for the
    columns [-60:1020], which selects the last 60 columns only: the
    full-bleed layer is 60 pixels wide, not 1080. *)
Theorem full_screen_clip_portrait_source :
  exists layer,
    full_screen_clip (Fixtures.recording 1080 2160 (10 # 1)) [] = (Ok layer, []) /\
    clip_src layer = Cropped (Resized (FromFile "in.mp4") 960 1920) 900 0 960 1920 /\
    clip_w layer = 60 /\ clip_h layer = 1920 /\
    ~ fills_target layer.
Proof.
  eexists; split; [vm_compute; reflexivity |].
  split; [reflexivity |].
  split; [reflexivity |].
  split; [reflexivity |].
  intros (Hw & _); discriminate Hw.
Qed.

(** One column short of 9:16 is enough: a 1079 by 1920 source keeps its
    1079 columns. *)
Example full_screen_clip_one_column_short :
  exists layer,
    full_screen_clip (Fixtures.recording 1079 1920 (10 # 1)) [] = (Ok layer, []) /\
    clip_w layer = 1079.
Proof. eexists; split; [vm_compute; reflexivity | reflexivity]. Qed.

(** ** Which steps leave events *)

Ltac silent_auto :=
  repeat first
    [ silent_step
    | match goal with
      | |- silent (match ?x with _ => _ end) => destruct x
      end ].

Lemma silent_VideoFileClip env path : silent (VideoFileClip env path).
Proof. unfold VideoFileClip; silent_auto. Qed.

Lemma silent_subclip clip a b : silent (subclip clip a b).
Proof. unfold subclip; silent_auto. Qed.

Lemma silent_resizer clip lx ly : silent (resizer clip lx ly).
Proof. unfold resizer; silent_auto. Qed.

Lemma silent_resize_height clip height : silent (resize_height clip height).
Proof. unfold resize_height; silent_auto; apply silent_resizer. Qed.

Lemma silent_ImageClip env path : silent (ImageClip env path).
Proof. unfold ImageClip; silent_auto. Qed.

Lemma silent_TextClip env txt size font stroke : silent (TextClip env txt size font stroke).
Proof. unfold TextClip; silent_auto. Qed.

Lemma silent_int_of_product n x : silent (int_of_product n x).
Proof. unfold int_of_product; silent_auto. Qed.

Lemma silent_get_frame0 env clip : silent (get_frame0 env clip).
Proof. unfold get_frame0; silent_auto. Qed.

Lemma silent_load_clip env path : silent (load_clip env path).
Proof.
  unfold load_clip; silent_auto;
    first [apply silent_VideoFileClip | apply silent_subclip].
Qed.

Lemma silent_create_background env duration : silent (create_background env duration).
Proof.
  unfold create_background, resize_to; silent_auto;
    first [apply silent_ImageClip | apply silent_resizer].
Qed.

Lemma silent_extract_webcam clip : silent (extract_webcam clip).
Proof.
  unfold extract_webcam; silent_auto;
    first [apply silent_int_of_product | apply silent_resize_height].
Qed.

Lemma silent_extract_gameplay clip : silent (extract_gameplay clip).
Proof.
  unfold extract_gameplay; silent_auto;
    first [apply silent_int_of_product | apply silent_resize_height].
Qed.

Lemma silent_full_screen_clip clip : silent (full_screen_clip clip).
Proof. unfold full_screen_clip; silent_auto; apply silent_resize_height. Qed.

Lemma silent_create_text_clip env text font size stroke y_pos duration :
  silent (create_text_clip env text font size stroke y_pos duration).
Proof. unfold create_text_clip; silent_auto; apply silent_TextClip. Qed.

Lemma silent_append_end_sequence env main_clip : silent (append_end_sequence env main_clip).
Proof.
  unfold append_end_sequence, resize_to; silent_auto;
    first [apply silent_VideoFileClip | apply silent_resizer].
Qed.

Lemma silent_compose clip bg title_clip streamer_clip face :
  silent (compose clip bg title_clip streamer_clip face).
Proof.
  unfold compose; silent_auto;
    first [apply silent_extract_webcam | apply silent_extract_gameplay
          | apply silent_full_screen_clip].
Qed.

(** ** The run of [process_gameplay_clip], step by step *)

Lemma try_except_RuntimeError_Ok_inv {A} (m : M A) (cleanup : M unit) tr a tr' :
  try_except_RuntimeError m (fun e => bind cleanup (fun _ => raise e)) tr = (Ok a, tr') ->
  m tr = (Ok a, tr').
Proof.
  unfold try_except_RuntimeError, bind, raise.
  destruct (m tr) as [[a0 | [msg | kind msg]] tr0]; intros H; try exact H.
  destruct (cleanup tr0) as [[u | e] tr1]; discriminate H.
Qed.


Lemma classifier_trace env clip tr r tr' :
  is_face_in_webcam_zone env clip tr = (r, tr') ->
  exists evs, tr' = (tr ++ evs)%list.
Proof.
  intros Hrun.
  destruct (classifier_cases env clip tr)
    as [(msg & Hr & _) | [(Hr & _) | (cv & Hr & _)]];
    rewrite Hr in Hrun; inversion Hrun; subst.
  - exists []; symmetry; apply app_nil_r.
  - exists []; symmetry; apply app_nil_r.
  - eexists; reflexivity.
Qed.

Lemma process_ok_inv env input_path output_path mds clip_data tr r tr' :
  process_gameplay_clip env input_path output_path mds clip_data tr = (Ok r, tr') ->
  exists v : run_values,
    let tr1 := (tr ++ rv_detector v)%list in
    let duration := clip_duration (rv_clip v) in
    load_clip env input_path tr = (Ok (rv_clip v), tr) /\
    is_face_in_webcam_zone env (rv_clip v) tr = (Ok (rv_face v), tr1) /\
    create_background env duration tr1 = (Ok (rv_bg v), tr1) /\
    create_text_clip env (Py.dict_get clip_data "title" "Titre du clip")
      "Roboto-Bold.ttf" 70 (3 # 2) Top duration tr1 = (Ok (rv_title v), tr1) /\
    create_text_clip env ("@" ++ Py.dict_get clip_data "broadcaster_name" "Streamer")
      "Roboto-Regular.ttf" 40 (1 # 2) Bottom duration tr1 = (Ok (rv_streamer v), tr1) /\
    compose (rv_clip v) (rv_bg v) (rv_title v) (rv_streamer v) (rv_face v) tr1
      = (Ok (rv_composed v), tr1) /\
    append_end_sequence env (VComposite (rv_composed v)) tr1 = (Ok (rv_final v), tr1) /\
    can_write env output_path = true /\
    r = output_path /\
    tr' = (tr1 ++ [EvWrite output_path (rv_final v) 30 "libx264" "aac";
                   EvClose (VClip (rv_clip v));
                   EvClose (VComposite (rv_composed v));
                   EvClose (rv_final v)])%list.
Proof.
  unfold process_gameplay_clip; intros H.
  apply bind_Ok_inv in H; destruct H as (clip & t0 & Hload & H).
  destruct (silent_run _ _ _ _ (silent_load_clip env input_path) Hload) as [-> _].
  apply bind_Ok_inv in H; destruct H as (face & t1 & Hface & H).
  apply try_except_RuntimeError_Ok_inv in Hface.
  destruct (classifier_trace _ _ _ _ _ Hface) as [evs ->].
  apply bind_Ok_inv in H; destruct H as (bg & t2 & Hbg & H).
  destruct (silent_run _ _ _ _ (silent_create_background _ _) Hbg) as [-> _].
  apply bind_Ok_inv in H; destruct H as (title & t3 & Htitle & H).
  destruct (silent_run _ _ _ _ (silent_create_text_clip _ _ _ _ _ _ _) Htitle) as [-> _].
  apply bind_Ok_inv in H; destruct H as (streamer & t4 & Hstreamer & H).
  destruct (silent_run _ _ _ _ (silent_create_text_clip _ _ _ _ _ _ _) Hstreamer) as [-> _].
  apply bind_Ok_inv in H; destruct H as (composed & t5 & Hcomposed & H).
  destruct (silent_run _ _ _ _ (silent_compose _ _ _ _ _) Hcomposed) as [-> _].
  apply bind_Ok_inv in H; destruct H as (final & t6 & Hfinal & H).
  destruct (silent_run _ _ _ _ (silent_append_end_sequence _ _) Hfinal) as [-> _].
  exists (mkRun clip face evs bg title streamer composed final); cbn zeta.
  cbn [rv_clip rv_face rv_detector rv_bg rv_title rv_streamer rv_composed rv_final].
  repeat (split; [assumption |]).
  unfold write_videofile, close, emit, bind, ret in H.
  destruct (can_write env output_path); [| discriminate H].
  inversion H; subst; split; [reflexivity |]; split; [reflexivity |].
  repeat rewrite <- app_assoc; reflexivity.
Qed.

(** ** The two composition plans *)

Lemma compose_inv clip bg title_clip streamer_clip face tr plan tr' :
  compose clip bg title_clip streamer_clip face tr = (Ok plan, tr') ->
  comp_audio plan = clip_audio clip /\
  comp_size plan = RESOLUTION /\
  if face
  then exists gameplay webcam,
         extract_gameplay clip tr = (Ok gameplay, tr) /\
         extract_webcam clip tr = (Ok webcam, tr) /\
         layers plan = [bg; gameplay; webcam; title_clip; streamer_clip]
  else exists gameplay_full,
         full_screen_clip clip tr = (Ok gameplay_full, tr) /\
         layers plan = [gameplay_full; title_clip; streamer_clip].
Proof.
  unfold compose; destruct face; intros H.
  - apply bind_Ok_inv in H; destruct H as (webcam & t0 & Hcam & H).
    destruct (silent_run _ _ _ _ (silent_extract_webcam _) Hcam) as [-> _].
    apply bind_Ok_inv in H; destruct H as (gameplay & t1 & Hgame & H).
    destruct (silent_run _ _ _ _ (silent_extract_gameplay _) Hgame) as [-> _].
    inversion H; subst; cbn.
    repeat split; exists gameplay, webcam; repeat split; assumption.
  - apply bind_Ok_inv in H; destruct H as (full & t0 & Hfull & H).
    destruct (silent_run _ _ _ _ (silent_full_screen_clip _) Hfull) as [-> _].
    inversion H; subst; cbn.
    repeat split; exists full; repeat split; assumption.
Qed.

Lemma resizer_src clip lx ly tr c tr' :
  resizer clip lx ly tr = (Ok c, tr') -> clip_src c = Resized (clip_src clip) lx ly.
Proof.
  unfold resizer.
  destruct ((clip_w clip <=? 0) || (clip_h clip <=? 0) || (lx <=? 0) || (ly <=? 0));
    intros H; inversion H; reflexivity.
Qed.

Lemma create_background_src env duration tr bg tr' :
  create_background env duration tr = (Ok bg, tr') ->
  clip_src bg = Color 0 0 0 \/ exists p w h, clip_src bg = Resized (Image p) w h.
Proof.
  unfold create_background; intros H.
  apply bind_Ok_inv in H; destruct H as (c & t0 & Hc & H).
  inversion H; subst; cbn [set_duration clip_src]; clear H.
  destruct (path_exists env _).
  - right. apply bind_Ok_inv in Hc; destruct Hc as (img & t1 & Himg & Hres).
    apply resizer_src in Hres; rewrite Hres.
    unfold ImageClip in Himg.
    destruct (image_size env _) as [[w h] |]; inversion Himg; subst; cbn.
    do 3 eexists; reflexivity.
  - left; inversion Hc; reflexivity.
Qed.

Lemma TextClip_src env txt size font stroke tr c tr' :
  TextClip env txt size font stroke tr = (Ok c, tr') ->
  clip_src c = Text txt font size stroke.
Proof.
  unfold TextClip; destruct (text_size env txt font size) as [[w h] |];
    intros H; inversion H; reflexivity.
Qed.

Lemma create_text_clip_src env text font size stroke y_pos duration tr c tr' :
  create_text_clip env text font size stroke y_pos duration tr = (Ok c, tr') ->
  exists f, clip_src c = Text text f size stroke.
Proof.
  unfold create_text_clip; intros H.
  apply bind_Ok_inv in H; destruct H as (txt & t0 & Htxt & H).
  inversion H; subst; cbn [set_duration set_position clip_src]; clear H.
  unfold try_except_Exception in Htxt.
  destruct (TextClip env text size (Some font) stroke tr) as [[a | e] t1] eqn:Hfirst.
  - inversion Htxt; subst; exists (Some font); eapply TextClip_src; eassumption.
  - exists None; eapply TextClip_src; eassumption.
Qed.

Lemma full_screen_clip_src clip tr c tr' :
  full_screen_clip clip tr = (Ok c, tr') ->
  exists inner a b c0 d, clip_src c = Cropped inner a b c0 d.
Proof.
  unfold full_screen_clip; intros H.
  apply bind_Ok_inv in H; destruct H as (r & t0 & _ & H).
  inversion H; subst; unfold crop, set_position.
  repeat match goal with
  | |- context [let '(_, _) := ?x in _] => destruct x
  end.
  cbn [clip_src]; do 5 eexists; reflexivity.
Qed.

Lemma append_end_sequence_main env c tr final tr' :
  append_end_sequence env (VComposite c) tr = (Ok final, tr') ->
  main_of final = VComposite c.
Proof.
  unfold append_end_sequence; destruct (path_exists env _); intros H.
  - apply bind_Ok_inv in H; destruct H as (e1 & t1 & _ & H).
    apply bind_Ok_inv in H; destruct H as (e2 & t2 & _ & H).
    inversion H; reflexivity.
  - inversion H; reflexivity.
Qed.

(** A run that returns has rendered the plan its classifier selected. *)
Lemma process_rendered_plan :
  forall (env : Env) (input_path output_path : string) (mds : Z)
         (clip_data : list (string * string)) (tr tr' : list event) (r : string),
    process_gameplay_clip env input_path output_path mds clip_data tr = (Ok r, tr') ->
    rendered_plan env input_path output_path clip_data tr tr'.
Proof.
  intros env input_path output_path mds clip_data tr tr' r Hrun.
  unfold rendered_plan.
  apply process_ok_inv in Hrun; destruct Hrun as ([clip face evs bg title caption plan final] & H).
  cbn zeta in H;
    cbn [rv_clip rv_face rv_detector rv_bg rv_title rv_streamer rv_composed rv_final] in H.
  destruct H as (Hload & Hface & Hbg & Htitle & Hcap & Hcomp & Hfinal & _ & _ & ->).
  exists clip, face, evs, bg, title, caption, plan, final.
  split; [exact Hload |]. split; [exact Hface |].
  split; [apply (silent_run _ _ _ _ (silent_create_background _ _) Hbg) |].
  split; [apply (silent_run _ _ _ _ (silent_create_text_clip _ _ _ _ _ _ _) Htitle) |].
  split; [apply (silent_run _ _ _ _ (silent_create_text_clip _ _ _ _ _ _ _) Hcap) |].
  split; [apply in_or_app; right; left; reflexivity |].
  split; [eapply append_end_sequence_main; eassumption |].
  destruct (compose_inv _ _ _ _ _ _ _ _ Hcomp) as (Haudio & _ & Hshape).
  split; [exact Haudio |].
  destruct face.
  - destruct Hshape as (gameplay & webcam & Hg & Hw & Hl).
    exists gameplay, webcam.
    split; [apply (silent_run _ _ _ _ (silent_extract_gameplay _) Hg) |].
    split; [apply (silent_run _ _ _ _ (silent_extract_webcam _) Hw) |].
    split; [exact Hl | rewrite Hl; reflexivity].
  - destruct Hshape as (full & Hf & Hl).
    exists full.
    split; [apply (silent_run _ _ _ _ (silent_full_screen_clip _) Hf) |].
    split; [exact Hl |]. split; [rewrite Hl; reflexivity |].
    rewrite Hl; intros Hin.
    apply create_background_src in Hbg.
    apply full_screen_clip_src in Hf; destruct Hf as (i & a & b & c & d & Hf).
    apply create_text_clip_src in Htitle; destruct Htitle as (f1 & Htitle).
    apply create_text_clip_src in Hcap; destruct Hcap as (f2 & Hcap).
    destruct Hin as [E | [E | [E | []]]]; subst bg;
      destruct Hbg as [Hbg | (p & w & h & Hbg)]; congruence.
Qed.

(** C1.  Every run of the pipeline that returns has rendered one
    composition plan, chosen by the classifier's boolean alone.  With a
    face the plan is [background, gameplay layer, webcam layer, title
    layer, caption layer]; without a face it is [full-bleed layer, title
    layer, caption layer] and the background is not in it.  In both cases
    the plan's audio is the audio track of the trimmed source clip. *)
Theorem composition_plan_follows_face_boolean :
  forall (env : Env) (input_path output_path : string) (mds : Z)
         (clip_data : list (string * string)) (tr tr' : list event) (r : string),
    process_gameplay_clip env input_path output_path mds clip_data tr = (Ok r, tr') ->
    rendered_plan env input_path output_path clip_data tr tr'.
Proof.
  intros env input_path output_path mds clip_data tr tr' r Hrun.
  eapply process_rendered_plan; exact Hrun.
Qed.

Lemma composition_plan_follows_face_boolean_witness :
  rendered_plan
    (Fixtures.machine (Some (Fixtures.opencv 1)) 1920 1080 (10 # 1) true true)
    "in.mp4" "out.mp4" [("title", "Ace clutch"); ("broadcaster_name", "Anyme023")] []
    (snd (process_gameplay_clip
            (Fixtures.machine (Some (Fixtures.opencv 1)) 1920 1080 (10 # 1) true true)
            "in.mp4" "out.mp4" 240
            [("title", "Ace clutch"); ("broadcaster_name", "Anyme023")] [])) /\
  rendered_plan
    (Fixtures.machine (Some (Fixtures.opencv 0)) 1920 1080 (10 # 1) true true)
    "in.mp4" "out.mp4" [] []
    (snd (process_gameplay_clip
            (Fixtures.machine (Some (Fixtures.opencv 0)) 1920 1080 (10 # 1) true true)
            "in.mp4" "out.mp4" 240 [] [])).
Proof.
  split.
  - apply (composition_plan_follows_face_boolean
             (Fixtures.machine (Some (Fixtures.opencv 1)) 1920 1080 (10 # 1) true true)
             "in.mp4" "out.mp4" 240
             [("title", "Ace clutch"); ("broadcaster_name", "Anyme023")] [] _ "out.mp4").
    vm_compute; reflexivity.
  - apply (composition_plan_follows_face_boolean
             (Fixtures.machine (Some (Fixtures.opencv 0)) 1920 1080 (10 # 1) true true)
             "in.mp4" "out.mp4" 240 [] [] _ "out.mp4").
    vm_compute; reflexivity.
Defined.

(** ** Trimming *)

Lemma load_clip_spec env input_path vi tr :
  probe env input_path = Some vi ->
  load_clip env input_path tr
  = match (vi_duration vi ?= cap)%Q with
    | Gt =>
        (Ok (mkClip (Subclipped (FromFile input_path) 0 cap) (vi_w vi) (vi_h vi)
               (Some cap)
               (option_map (fun a => mkAudio (audio_path a) cap)
                  (option_map (mkAudio input_path) (vi_audio vi)))
               (Px 0, Px 0)), tr)
    | _ =>
        (Ok (mkClip (FromFile input_path) (vi_w vi) (vi_h vi)
               (Some (vi_duration vi))
               (option_map (mkAudio input_path) (vi_audio vi))
               (Px 0, Px 0)), tr)
    end.
Proof.
  intros Hp; unfold load_clip, VideoFileClip; rewrite Hp.
  unfold bind at 1; unfold ret at 1; cbn [clip_duration].
  fold cap.
  destruct (vi_duration vi ?= cap)%Q eqn:Hc; try reflexivity.
  unfold subclip; cbn [clip_duration clip_src clip_w clip_h clip_audio clip_pos].
  assert (H0 : (0 ?= vi_duration vi)%Q = Lt).
  { apply Qlt_alt. apply Qgt_alt in Hc.
    apply Qlt_trans with cap; [reflexivity | exact Hc]. }
  rewrite H0; reflexivity.
Qed.

Lemma resizer_duration clip lx ly tr c tr' :
  resizer clip lx ly tr = (Ok c, tr') -> clip_duration c = clip_duration clip.
Proof.
  unfold resizer.
  destruct ((clip_w clip <=? 0) || (clip_h clip <=? 0) || (lx <=? 0) || (ly <=? 0));
    intros H; inversion H; reflexivity.
Qed.

Lemma resize_height_duration clip height tr c tr' :
  resize_height clip height tr = (Ok c, tr') -> clip_duration c = clip_duration clip.
Proof.
  unfold resize_height; destruct (clip_h clip =? 0); intros H.
  - discriminate H.
  - eapply resizer_duration; eassumption.
Qed.

Lemma crop_duration clip a b c d e f g i :
  clip_duration (crop clip a b c d e f g i) = clip_duration clip.
Proof.
  unfold crop.
  repeat match goal with
  | |- context [let '(_, _) := ?x in _] => destruct x
  end.
  reflexivity.
Qed.

Lemma extract_webcam_duration clip tr cam tr' :
  extract_webcam clip tr = (Ok cam, tr') -> clip_duration cam = clip_duration clip.
Proof.
  unfold extract_webcam; intros H.
  apply bind_Ok_inv in H; destruct H as (ht & t0 & _ & H).
  apply bind_Ok_inv in H; destruct H as (c & t1 & Hres & H).
  inversion H; subst; cbn [set_position clip_duration].
  apply resize_height_duration in Hres; rewrite Hres; apply crop_duration.
Qed.

Lemma extract_gameplay_duration clip tr game tr' :
  extract_gameplay clip tr = (Ok game, tr') -> clip_duration game = clip_duration clip.
Proof.
  unfold extract_gameplay; intros H.
  apply bind_Ok_inv in H; destruct H as (ht & t0 & _ & H).
  apply bind_Ok_inv in H; destruct H as (c & t1 & Hres & H).
  apply bind_Ok_inv in H; destruct H as (y & t2 & _ & H).
  inversion H; subst; cbn [set_position clip_duration].
  apply resize_height_duration in Hres; rewrite Hres; apply crop_duration.
Qed.

Lemma full_screen_clip_duration clip tr c tr' :
  full_screen_clip clip tr = (Ok c, tr') -> clip_duration c = clip_duration clip.
Proof.
  unfold full_screen_clip; intros H.
  apply bind_Ok_inv in H; destruct H as (r & t0 & Hres & H).
  inversion H; subst; cbn [set_position clip_duration].
  rewrite crop_duration; eapply resize_height_duration; eassumption.
Qed.

Lemma create_background_duration env duration tr bg tr' :
  create_background env duration tr = (Ok bg, tr') -> clip_duration bg = duration.
Proof.
  unfold create_background; intros H.
  apply bind_Ok_inv in H; destruct H as (c & t0 & _ & H).
  inversion H; reflexivity.
Qed.

Lemma create_text_clip_duration env text font size stroke y_pos duration tr c tr' :
  create_text_clip env text font size stroke y_pos duration tr = (Ok c, tr') ->
  clip_duration c = duration.
Proof.
  unfold create_text_clip; intros H.
  apply bind_Ok_inv in H; destruct H as (txt & t0 & _ & H).
  inversion H; reflexivity.
Qed.

(** Every layer of a rendered plan lasts as long as the trimmed clip. *)
Lemma rendered_plan_durations env input_path output_path clip_data tr tr' :
  rendered_plan env input_path output_path clip_data tr tr' ->
  exists clip plan final,
    load_clip env input_path tr = (Ok clip, tr) /\
    In (EvWrite output_path final 30 "libx264" "aac") tr' /\
    main_of final = VComposite plan /\
    Forall (fun layer => clip_duration layer = clip_duration clip) (layers plan).
Proof.
  intros (clip & face & evs & bg & title & caption & plan & final
          & Hload & _ & Hbg & Htitle & Hcap & Hin & Hmain & _ & Hshape).
  exists clip, plan, final; repeat (split; [assumption |]).
  specialize (Hbg []); specialize (Htitle []); specialize (Hcap []).
  apply create_background_duration in Hbg.
  apply create_text_clip_duration in Htitle, Hcap.
  destruct face.
  - destruct Hshape as (gameplay & webcam & Hg & Hw & -> & _).
    specialize (Hg []); specialize (Hw []).
    apply extract_gameplay_duration in Hg; apply extract_webcam_duration in Hw.
    repeat constructor; assumption.
  - destruct Hshape as (full & Hf & -> & _).
    specialize (Hf []); apply full_screen_clip_duration in Hf.
    repeat constructor; assumption.
Qed.

(** C5.  Whatever [max_duration_seconds] the caller passes, the clip
    loaded for the pipeline lasts [min(source duration, 180 s)]: a longer
    source becomes its sub-clip from 0 to 180 s, a shorter one is kept
    whole; the argument changes nothing in the run; and every layer of the
    rendered plan has that duration. *)
Theorem trimmed_duration_is_capped :
  forall (env : Env) (input_path : string) (vi : VideoInfo),
    probe env input_path = Some vi ->
    let trimmed := Qmin (vi_duration vi) cap in
    cap = (180 # 1)%Q /\
    (forall tr, exists clip,
        load_clip env input_path tr = (Ok clip, tr) /\
        clip_duration clip = Some trimmed /\
        ((cap < vi_duration vi)%Q ->
         trimmed = cap /\ clip_src clip = Subclipped (FromFile input_path) 0 cap) /\
        ((vi_duration vi <= cap)%Q ->
         trimmed = vi_duration vi /\ clip_src clip = FromFile input_path)) /\
    (forall output_path m1 m2 clip_data,
        process_gameplay_clip env input_path output_path m1 clip_data
        = process_gameplay_clip env input_path output_path m2 clip_data) /\
    (forall output_path mds clip_data tr r tr',
        process_gameplay_clip env input_path output_path mds clip_data tr = (Ok r, tr') ->
        exists plan final,
          In (EvWrite output_path final 30 "libx264" "aac") tr' /\
          main_of final = VComposite plan /\
          Forall (fun layer => clip_duration layer = Some trimmed) (layers plan)).
Proof.
  intros env input_path vi Hp trimmed.
  assert (Hload : forall tr, exists clip,
             load_clip env input_path tr = (Ok clip, tr) /\
             clip_duration clip = Some trimmed /\
             ((cap < vi_duration vi)%Q ->
              trimmed = cap /\ clip_src clip = Subclipped (FromFile input_path) 0 cap) /\
             ((vi_duration vi <= cap)%Q ->
              trimmed = vi_duration vi /\ clip_src clip = FromFile input_path)).
  { intros tr; rewrite (load_clip_spec env input_path vi tr Hp).
    subst trimmed; unfold Qmin, GenericMinMax.gmin.
    destruct (vi_duration vi ?= cap)%Q eqn:Hc; eexists; (split; [reflexivity |]);
      cbn [clip_duration clip_src]; (split; [reflexivity |]); split; intros H;
      try (split; reflexivity).
    - apply Qgt_alt in H; congruence.
    - apply Qgt_alt in H; congruence.
    - apply Qle_alt in H; contradiction. }
  split; [reflexivity |]. split; [exact Hload |]. split; [reflexivity |].
  intros output_path mds clip_data tr r tr' Hrun.
  apply process_rendered_plan in Hrun.
  destruct (rendered_plan_durations _ _ _ _ _ _ Hrun)
    as (clip & plan & final & Hclip & Hin & Hmain & Hall).
  destruct (Hload tr) as (clip' & Hclip' & Hdur & _).
  rewrite Hclip in Hclip'; inversion Hclip'; subst clip'.
  exists plan, final; repeat (split; [assumption |]).
  rewrite <- Hdur; exact Hall.
Qed.

Lemma trimmed_duration_is_capped_witness :
  exists clip,
    load_clip (Fixtures.machine (Some (Fixtures.opencv 1)) 1920 1080 (200 # 1) true true)
      "in.mp4" [] = (Ok clip, []) /\
    clip_duration clip = Some (180 # 1)%Q.
Proof.
  destruct (trimmed_duration_is_capped
              (Fixtures.machine (Some (Fixtures.opencv 1)) 1920 1080 (200 # 1) true true)
              "in.mp4" (mkVideoInfo 1920 1080 (200 # 1) (Some (200 # 1)%Q) true) eq_refl)
    as (_ & Hload & _).
  destruct (Hload []) as (clip & Hrun & Hdur & _).
  exists clip; split; [exact Hrun | exact Hdur].
Defined.

(** ** Failure paths and resources *)

(** C7.  When the detection module is not installed, when its cascade
    file is not found, or when the first frame of the trimmed clip cannot
    be extracted, the classifier raises a [RuntimeError]; [process] closes
    the source clip and lets that same error reach its caller: no layout
    is chosen and nothing else happens. *)
Theorem classifier_failure_closes_clip_and_propagates :
  forall (env : Env) (input_path output_path : string) (mds : Z)
         (clip_data : list (string * string)) (tr : list event) (clip : Clip),
    load_clip env input_path tr = (Ok clip, tr) ->
    cv2 env = None \/ cascade_missing env \/ frame0_fails env clip ->
    exists msg,
      is_face_in_webcam_zone env clip tr = (Raise (RuntimeError msg), tr) /\
      process_gameplay_clip env input_path output_path mds clip_data tr
      = (Raise (RuntimeError msg), (tr ++ [EvClose (VClip clip)])%list).
Proof.
  intros env input_path output_path mds clip_data tr clip Hload Hmissing.
  destruct (classifier_raises env clip tr Hmissing) as [msg Hface].
  exists msg; split; [exact Hface |].
  unfold process_gameplay_clip.
  unfold bind at 1; rewrite Hload.
  unfold bind at 1; unfold try_except_RuntimeError; rewrite Hface.
  reflexivity.
Qed.

Lemma classifier_failure_closes_clip_and_propagates_witness :
  exists msg,
    process_gameplay_clip
      (Fixtures.machine None 1920 1080 (10 # 1) true true)
      "in.mp4" "out.mp4" 180 [] []
    = (Raise (RuntimeError msg),
       [EvClose (VClip (Fixtures.recording 1920 1080 (10 # 1)))]).
Proof.
  destruct (classifier_failure_closes_clip_and_propagates
              (Fixtures.machine None 1920 1080 (10 # 1) true true)
              "in.mp4" "out.mp4" 180 [] [] (Fixtures.recording 1920 1080 (10 # 1))
              eq_refl (or_introl eq_refl))
    as (msg & _ & Hrun).
  exists msg; exact Hrun.
Defined.

(** What a run that returns has closed: the source clip, the composed
    visual and the final sequence, in that order; without an outro the
    final sequence is the composed visual itself. *)
Lemma success_closes env input_path output_path mds clip_data tr r tr' :
  process_gameplay_clip env input_path output_path mds clip_data tr = (Ok r, tr') ->
  exists clip composed final evs,
    tr' = (tr ++ evs)%list /\
    closed evs = [VClip clip; VComposite composed; final] /\
    (path_exists env (end_path env) = false -> final = VComposite composed).
Proof.
  intros Hrun; apply process_ok_inv in Hrun.
  destruct Hrun as ([clip face evs bg title caption plan final] & H).
  cbn zeta in H;
    cbn [rv_clip rv_face rv_detector rv_bg rv_title rv_streamer rv_composed rv_final] in H.
  destruct H as (_ & Hface & _ & _ & _ & _ & Hfinal & _ & _ & ->).
  exists clip, plan, final; eexists; split; [rewrite <- app_assoc; reflexivity |].
  split.
  - destruct (classifier_cases env clip tr)
      as [(msg & Hr & _) | [(Hr & _) | (cv & Hr & _)]];
      rewrite Hr in Hface; inversion Hface as [[Hb Hevs]].
    + rewrite <- (app_nil_r tr) in Hevs at 1.
      apply app_inv_head in Hevs; subst evs; reflexivity.
    + apply app_inv_head in Hevs; subst evs; reflexivity.
  - intros Hno; unfold append_end_sequence in Hfinal; fold (end_path env) in Hfinal.
    rewrite Hno in Hfinal; inversion Hfinal; reflexivity.
Qed.

(** When the encoder fails in a run that would otherwise return, the
    error leaves [process] with nothing closed. *)
Lemma render_failure_closes_nothing env input_path output_path mds clip_data tr r tr' :
  process_gameplay_clip env input_path output_path mds clip_data tr = (Ok r, tr') ->
  exists e evs,
    process_gameplay_clip (with_encoder env (fun _ => false))
      input_path output_path mds clip_data tr = (Raise e, (tr ++ evs)%list) /\
    closed evs = [].
Proof.
  intros Hrun; apply process_ok_inv in Hrun.
  destruct Hrun as ([clip face evs bg title caption plan final] & H).
  cbn zeta in H;
    cbn [rv_clip rv_face rv_detector rv_bg rv_title rv_streamer rv_composed rv_final] in H.
  destruct H as (Hload & Hface & Hbg & Htitle & Hcap & Hcomp & Hfinal & _ & _ & _).
  exists (LibraryError "OSError" output_path), evs; split.
  - unfold process_gameplay_clip.
    change (load_clip (with_encoder env (fun _ => false))) with (load_clip env).
    unfold bind at 1; rewrite Hload.
    change (is_face_in_webcam_zone (with_encoder env (fun _ => false)))
      with (is_face_in_webcam_zone env).
    unfold bind at 1; unfold try_except_RuntimeError; rewrite Hface.
    change (create_background (with_encoder env (fun _ => false)))
      with (create_background env).
    unfold bind at 1; rewrite Hbg.
    change (create_text_clip (with_encoder env (fun _ => false)))
      with (create_text_clip env).
    unfold bind at 1; rewrite Htitle.
    unfold bind at 1; rewrite Hcap.
    unfold bind at 1; rewrite Hcomp.
    change (append_end_sequence (with_encoder env (fun _ => false)))
      with (append_end_sequence env).
    unfold bind at 1; rewrite Hfinal.
    reflexivity.
  - destruct (classifier_cases env clip tr)
      as [(msg & Hr & _) | [(Hr & _) | (cv & Hr & _)]];
      rewrite Hr in Hface; inversion Hface as [[Hb Hevs]].
    + rewrite <- (app_nil_r tr) in Hevs at 1.
      apply app_inv_head in Hevs; subst evs; reflexivity.
    + apply app_inv_head in Hevs; subst evs; reflexivity.
Qed.

(** C8, at a failing run.  On a machine where everything works but the
    encoder, [process] raises the encoder's error and closes nothing:
    neither the source clip nor the composed visual is released. *)
Theorem render_failure_leaves_clips_open :
  exists e tr,
    process_gameplay_clip
      (Fixtures.machine (Some (Fixtures.opencv 1)) 1920 1080 (10 # 1) true false)
      "in.mp4" "out.mp4" 180 [] [] = (Raise e, tr) /\
    e = LibraryError "OSError" "out.mp4" /\
    tr = [EvDetect (mkRect 5 8 542 282)] /\
    closed tr = [].
Proof.
  do 2 eexists; split; [vm_compute; reflexivity |].
  repeat split.
Qed.

(** * Further properties of the script *)

(** ** The layer builders at the edges of their domain *)

Lemma int_of_Q_inject (z : Z) : Py.int_of_Q (inject_Z z) = z.
Proof. unfold Py.int_of_Q, inject_Z; cbn [Qnum Qden]; apply Z.quot_1_r. Qed.

(** The size of the crop to the webcam zone, for any frame. *)
Lemma crop_webcam_dims (clip : Clip) :
  let cam := crop clip
               (Some (inject_Z (x1 WEBCAM_COORDS))) (Some (inject_Z (y1 WEBCAM_COORDS)))
               (Some (inject_Z (x2 WEBCAM_COORDS))) (Some (inject_Z (y2 WEBCAM_COORDS)))
               None None None None in
  clip_w cam = Z.max (Z.min 5 (clip_w clip)) (Z.min 542 (clip_w clip))
               - Z.min 5 (clip_w clip) /\
  clip_h cam = Z.max (Z.min 8 (clip_h clip)) (Z.min 282 (clip_h clip))
               - Z.min 8 (clip_h clip).
Proof.
  unfold crop; cbn; unfold Py.slice_index; cbn; split; reflexivity.
Qed.

(** A resize of an empty clip raises. *)
Lemma resize_height_empty (clip : Clip) (height : Z) (tr : list event) :
  clip_w clip <= 0 \/ clip_h clip <= 0 ->
  exists kind msg,
    resize_height clip height tr = (Raise (LibraryError kind msg), tr).
Proof.
  intros Hempty; unfold resize_height, resizer.
  destruct (Z.eqb_spec (clip_h clip) 0); [do 2 eexists; reflexivity |].
  destruct (Z.leb_spec (clip_w clip) 0); [do 2 eexists; reflexivity |].
  destruct (Z.leb_spec (clip_h clip) 0); [do 2 eexists; reflexivity | lia].
Qed.

(** X1.  On a frame of non-negative size, the webcam layer is built
    exactly when the frame reaches into the webcam zone, that is when it
    is wider than 5 and taller than 8 pixels; otherwise the crop is empty
    and the resize raises a library error that is not a [RuntimeError]. *)
Theorem extract_webcam_domain :
  forall (clip : Clip) (tr : list event),
    0 <= clip_w clip -> 0 <= clip_h clip ->
    ((exists cam, extract_webcam clip tr = (Ok cam, tr))
     <-> 5 < clip_w clip /\ 8 < clip_h clip) /\
    (clip_w clip <= 5 \/ clip_h clip <= 8 ->
     exists kind msg, extract_webcam clip tr = (Raise (LibraryError kind msg), tr)).
Proof.
  intros clip tr Hw Hh.
  assert (Hraise : clip_w clip <= 5 \/ clip_h clip <= 8 ->
            exists kind msg, extract_webcam clip tr = (Raise (LibraryError kind msg), tr)).
  { intros Hsmall; unfold extract_webcam.
    rewrite int_of_product_033; unfold bind at 1; unfold ret at 1.
    destruct (crop_webcam_dims clip) as [Hcw Hch]; cbv zeta in Hcw, Hch.
    match goal with
    | |- context [resize_height ?c 633] =>
        destruct (resize_height_empty c 633 tr) as (kind & msg & Hres); [lia |]
    end.
    exists kind, msg; unfold bind; rewrite Hres; reflexivity. }
  split; [| exact Hraise].
  split.
  - intros [cam Hcam].
    destruct (Z_lt_le_dec 5 (clip_w clip)) as [H5 | H5];
      destruct (Z_lt_le_dec 8 (clip_h clip)) as [H8 | H8]; try (split; assumption);
      (destruct Hraise as (kind & msg & Hr); [lia | rewrite Hr in Hcam; discriminate]).
  - intros [H5 H8]; eexists; apply extract_webcam_spec; assumption.
Qed.

Lemma extract_webcam_domain_witness :
  exists kind msg,
    extract_webcam (Fixtures.recording 4 100 (10 # 1)) []
    = (Raise (LibraryError kind msg), []).
Proof.
  apply (extract_webcam_domain (Fixtures.recording 4 100 (10 # 1)) []);
    cbn; lia.
Defined.

(** The crop below the webcam zone, for any frame of non-negative size. *)
Lemma crop_gameplay_zone (clip : Clip) :
  0 <= clip_w clip -> 0 <= clip_h clip ->
  crop clip None (Some (inject_Z (y2 WEBCAM_COORDS))) None
    (Some (inject_Z (clip_h clip))) None None None None
  = mkClip (Cropped (clip_src clip) 0 (Z.min 282 (clip_h clip)) (clip_w clip) (clip_h clip))
      (clip_w clip) (clip_h clip - Z.min 282 (clip_h clip))
      (clip_duration clip) (clip_audio clip) (clip_pos clip).
Proof.
  intros Hw Hh; unfold crop, crop_axis.
  assert (Hhi : Py.or_default (Some (inject_Z (clip_h clip))) (inject_Z (clip_h clip))
                = inject_Z (clip_h clip))
    by (unfold Py.or_default; destruct (Py.truthy _); reflexivity).
  cbv iota beta; rewrite Hhi.
  change (Py.or_default None 0%Q) with 0%Q.
  change (Py.or_default None (inject_Z (clip_w clip))) with (inject_Z (clip_w clip)).
  change (Py.or_default (Some (inject_Z (y2 WEBCAM_COORDS))) 0%Q) with (inject_Z 282).
  rewrite !int_of_Q_inject; change (Py.int_of_Q 0%Q) with 0.
  unfold Py.slice, Py.slice_index.
  destruct (Z.ltb_spec (clip_w clip) 0); [lia |].
  destruct (Z.ltb_spec (clip_h clip) 0); [lia |].
  cbn [Z.ltb Z.compare].
  replace (Z.min 0 (clip_w clip)) with 0 by lia.
  replace (Z.max 0 (Z.min (clip_w clip) (clip_w clip))) with (clip_w clip) by lia.
  replace (Z.max (Z.min 282 (clip_h clip)) (Z.min (clip_h clip) (clip_h clip)))
    with (clip_h clip) by lia.
  replace (clip_w clip - 0) with (clip_w clip) by lia.
  reflexivity.
Qed.

(** X2.  For a source taller than the webcam zone's bottom edge (282
    pixels) the gameplay layer is everything below that edge at full
    width, scaled to height [int(1920 * 0.67) = 1286] with the width
    following and truncated, placed at [x = (1080 - width) // 2] and
    [y = int(1920 * 0.33) = 633]; its duration and audio are the
    source's. *)
Theorem gameplay_layer_geometry :
  forall (clip : Clip) (tr : list event),
    0 < clip_w clip -> 282 < clip_h clip ->
    clip_h clip - 282 <= clip_w clip * 1286 ->
    let gw := clip_w clip * 1286 / (clip_h clip - 282) in
    extract_gameplay clip tr
    = (Ok (mkClip
             (Resized (Cropped (clip_src clip) 0 282 (clip_w clip) (clip_h clip)) gw 1286)
             gw 1286 (clip_duration clip) (clip_audio clip)
             (Px ((1080 - gw) / 2), Px 633)), tr).
Proof.
  intros clip tr Hw Hh Hscale gw; unfold extract_gameplay.
  rewrite crop_gameplay_zone by lia.
  replace (Z.min 282 (clip_h clip)) with 282 by lia.
  rewrite int_of_product_067; unfold bind at 1; unfold ret at 1.
  rewrite resize_height_spec by (cbn [clip_w clip_h]; lia).
  unfold bind at 1; unfold ret at 1.
  rewrite int_of_product_033; reflexivity.
Qed.

Lemma gameplay_layer_geometry_witness :
  extract_gameplay (Fixtures.recording 1920 1080 (10 # 1)) []
  = (Ok (mkClip
           (Resized (Cropped (FromFile "in.mp4") 0 282 1920 1080) 3094 1286)
           3094 1286 (Some (10 # 1)%Q) (Some (mkAudio "in.mp4" (10 # 1)))
           (Px (-1007), Px 633)), []).
Proof.
  apply (gameplay_layer_geometry (Fixtures.recording 1920 1080 (10 # 1)) []);
    cbn; lia.
Defined.

(** X3.  A source of non-negative size that is no taller than 282 pixels,
    or has no column, leaves nothing below the webcam zone: the gameplay
    layer cannot be built and [extract_gameplay] raises a library error
    that is not a [RuntimeError]. *)
Theorem extract_gameplay_needs_rows_below_zone :
  forall (clip : Clip) (tr : list event),
    0 <= clip_w clip -> 0 <= clip_h clip ->
    clip_h clip <= 282 \/ clip_w clip = 0 ->
    exists kind msg, extract_gameplay clip tr = (Raise (LibraryError kind msg), tr).
Proof.
  intros clip tr Hw Hh Hsmall; unfold extract_gameplay.
  rewrite crop_gameplay_zone by lia.
  rewrite int_of_product_067; unfold bind at 1; unfold ret at 1.
  match goal with
  | |- context [resize_height ?c 1286] =>
      destruct (resize_height_empty c 1286 tr) as (kind & msg & Hres);
        [cbn [clip_w clip_h]; lia |]
  end.
  exists kind, msg; unfold bind; rewrite Hres; reflexivity.
Qed.

Lemma extract_gameplay_needs_rows_below_zone_witness :
  exists kind msg,
    extract_gameplay (Fixtures.recording 426 240 (10 # 1)) []
    = (Raise (LibraryError kind msg), []).
Proof.
  apply (extract_gameplay_needs_rows_below_zone (Fixtures.recording 426 240 (10 # 1)) []);
    cbn; lia.
Defined.

Lemma resize_height_Ok_height clip height tr c tr' :
  resize_height clip height tr = (Ok c, tr') -> clip_h c = height.
Proof.
  unfold resize_height; destruct (clip_h clip =? 0); [discriminate |].
  unfold resizer; destruct (_ || _); intros H; inversion H; reflexivity.
Qed.

(** X4.  Whenever both layers of the with-face layout are built, the
    webcam layer covers the rows 0 to 633 of the target and the gameplay
    layer the rows 633 to 1919: they touch without overlapping, and the
    last row of the 1920-row target is covered by neither. *)
Theorem webcam_and_gameplay_stack :
  forall (clip : Clip) (tr tr1 tr2 : list event) (webcam gameplay : Clip),
    extract_webcam clip tr = (Ok webcam, tr1) ->
    extract_gameplay clip tr = (Ok gameplay, tr2) ->
    top_row webcam = Some 0 /\
    bottom_row webcam = Some 633 /\
    top_row gameplay = Some 633 /\
    bottom_row gameplay = Some 1919 /\
    1919 < snd RESOLUTION.
Proof.
  intros clip tr tr1 tr2 webcam gameplay Hcam Hgame.
  unfold extract_webcam in Hcam.
  apply bind_Ok_inv in Hcam; destruct Hcam as (hc & t0 & Hhc & Hcam).
  rewrite int_of_product_033 in Hhc; inversion Hhc; subst hc t0; clear Hhc.
  apply bind_Ok_inv in Hcam; destruct Hcam as (c & t1 & Hresc & Hcam).
  inversion Hcam; subst webcam tr1; clear Hcam.
  apply resize_height_Ok_height in Hresc.
  unfold extract_gameplay in Hgame.
  apply bind_Ok_inv in Hgame; destruct Hgame as (hg & t2 & Hhg & Hgame).
  rewrite int_of_product_067 in Hhg; inversion Hhg; subst hg t2; clear Hhg.
  apply bind_Ok_inv in Hgame; destruct Hgame as (g & t3 & Hresg & Hgame).
  apply bind_Ok_inv in Hgame; destruct Hgame as (y & t4 & Hy & Hgame).
  rewrite int_of_product_033 in Hy; inversion Hy; subst y t4; clear Hy.
  inversion Hgame; subst gameplay tr2; clear Hgame.
  apply resize_height_Ok_height in Hresg.
  unfold top_row, bottom_row; cbn [set_position clip_pos clip_h snd].
  rewrite Hresc, Hresg; repeat split; reflexivity.
Qed.

Lemma webcam_and_gameplay_stack_witness :
  bottom_row
    (mkClip (Resized (Cropped (FromFile "in.mp4") 5 8 542 282) 1240 633)
       1240 633 (Some (10 # 1)%Q) (Some (mkAudio "in.mp4" (10 # 1)))
       (Px (-80), Px 0)) = Some 633 /\
  top_row
    (mkClip (Resized (Cropped (FromFile "in.mp4") 0 282 1920 1080) 3094 1286)
       3094 1286 (Some (10 # 1)%Q) (Some (mkAudio "in.mp4" (10 # 1)))
       (Px (-1007), Px 633)) = Some 633.
Proof.
  destruct (webcam_and_gameplay_stack
              (Fixtures.recording 1920 1080 (10 # 1)) [] [] []
              (mkClip (Resized (Cropped (FromFile "in.mp4") 5 8 542 282) 1240 633)
                 1240 633 (Some (10 # 1)%Q) (Some (mkAudio "in.mp4" (10 # 1)))
                 (Px (-80), Px 0))
              (mkClip (Resized (Cropped (FromFile "in.mp4") 0 282 1920 1080) 3094 1286)
                 3094 1286 (Some (10 # 1)%Q) (Some (mkAudio "in.mp4" (10 # 1)))
                 (Px (-1007), Px 633)))
    as (_ & Hb & Ht & _).
  - vm_compute; reflexivity.
  - vm_compute; reflexivity.
  - split; assumption.
Defined.

(** ** The full-bleed layer over all aspect ratios *)

(** The bounds around the centre of an axis, whatever the size asked for:
    [int] truncates toward zero, also below zero. *)
Lemma center_crop_axis_quot (n size : Z) :
  0 < n -> 0 < size ->
  crop_axis n None None (Some (inject_Z size)) (Some (inject_Z n / 2)%Q)
  = (Z.quot (n - size) 2, Z.quot (n + size) 2).
Proof.
  intros Hn Hs; unfold crop_axis.
  assert (Ht : Py.truthy (Some (inject_Z n / 2)%Q) = true).
  { unfold Py.truthy, inject_Z, Qdiv, Qmult, Qinv; cbn [Qnum Qden].
    destruct (Z.eqb_spec (n * 1) 0); [lia | reflexivity]. }
  cbv iota beta; rewrite Ht; clear Ht.
  unfold Py.or_default, Py.truthy, Py.int_of_Q, inject_Z, Qdiv, Qmult, Qinv, Qminus, Qplus, Qopp;
    cbn [Qnum Qden].
  change (Z.pos (1 * 2)) with 2.
  f_equal.
  - destruct (Z.eqb_spec (n * 1 * 2 + - (size * 1) * 2) 0) as [E | E];
      cbn [negb Qnum Qden]; change (Z.pos (1 * 2 * (1 * 2))) with 4; lia.
  - destruct (Z.eqb_spec (n * 1 * 2 + size * 1 * 2) 0) as [E | E];
      cbn [negb Qnum Qden]; change (Z.pos (1 * 2 * (1 * 2))) with 4; lia.
Qed.

(** X5.  For every source whose width, once its height is scaled to
    1920, is at least 1080 (an aspect ratio of 9:16 or wider), the
    full-bleed layer is built, is exactly 1080 by 1920 at position
    (0, 0), and is the window of 1080 columns of the scaled source that
    leaves margins differing by at most one column on the two sides. *)
Theorem full_bleed_exact_when_wide :
  forall (clip : Clip) (tr : list event),
    0 < clip_w clip -> 0 < clip_h clip ->
    1080 * clip_h clip <= 1920 * clip_w clip ->
    let sw := clip_w clip * 1920 / clip_h clip in
    exists layer left,
      full_screen_clip clip tr = (Ok layer, tr) /\
      fills_target layer /\
      clip_src layer = Cropped (Resized (clip_src clip) sw 1920) left 0 (left + 1080) 1920 /\
      0 <= left /\ left + 1080 <= sw /\
      0 <= (sw - (left + 1080)) - left <= 1.
Proof.
  intros clip tr Hw Hh Hwide sw.
  assert (Hsw : 1080 <= sw) by (apply Z.div_le_lower_bound; lia).
  eexists; exists ((sw - 1080) / 2).
  split; [apply full_screen_clip_spec; assumption |].
  split; [repeat split |].
  split; [reflexivity | lia].
Qed.

Lemma full_bleed_exact_when_wide_witness :
  exists layer left,
    full_screen_clip (Fixtures.recording 1920 1080 (10 # 1)) [] = (Ok layer, []) /\
    fills_target layer /\
    clip_src layer
    = Cropped (Resized (FromFile "in.mp4") (1920 * 1920 / 1080) 1920)
        left 0 (left + 1080) 1920 /\
    0 <= left /\ left + 1080 <= 1920 * 1920 / 1080 /\
    0 <= (1920 * 1920 / 1080 - (left + 1080)) - left <= 1.
Proof.
  apply (full_bleed_exact_when_wide (Fixtures.recording 1920 1080 (10 # 1)) []);
    cbn; lia.
Defined.

(** X6.  For sources of aspect ratio 16:9, 4:3, 1:1 and 9:16, of any
    size, the full-bleed layer is exactly 1080 by 1920 at (0, 0). *)
Theorem full_bleed_exact_for_standard_ratios :
  forall (clip : Clip) (tr : list event),
    aspect_ratio clip 16 9 \/ aspect_ratio clip 4 3 \/
    aspect_ratio clip 1 1 \/ aspect_ratio clip 9 16 ->
    exists layer, full_screen_clip clip tr = (Ok layer, tr) /\ fills_target layer.
Proof.
  intros clip tr H.
  assert (Hdims : 0 < clip_w clip /\ 0 < clip_h clip
                  /\ 1080 * clip_h clip <= 1920 * clip_w clip)
    by (destruct H as [H | [H | [H | H]]]; destruct H as (k & Hk & Hw & Hh); lia).
  destruct Hdims as (Hw & Hh & Hwide).
  eexists; split; [apply full_screen_clip_spec; assumption | repeat split].
Qed.

Lemma full_bleed_exact_for_standard_ratios_witness :
  (exists layer,
     full_screen_clip (Fixtures.recording 1440 1080 (10 # 1)) [] = (Ok layer, []) /\
     fills_target layer) /\
  (exists layer,
     full_screen_clip (Fixtures.recording 720 1280 (10 # 1)) [] = (Ok layer, []) /\
     fills_target layer).
Proof.
  split.
  - apply (full_bleed_exact_for_standard_ratios (Fixtures.recording 1440 1080 (10 # 1)) []).
    right; left; exists 360; cbn; lia.
  - apply (full_bleed_exact_for_standard_ratios (Fixtures.recording 720 1280 (10 # 1)) []).
    right; right; right; exists 80; cbn; lia.
Defined.

(** X7.  For every source narrower than 9:16 (scaled width [sw] below
    1080) the full-bleed layer is built but does not fill the target: it
    is 1920 rows high and only [(1080 - sw) // 2] columns wide (all [sw]
    columns when that is more than there are, and all 1079 when
    [sw = 1079]): the left bound of the centred crop is negative and
    counts from the right edge. *)
Theorem full_bleed_narrow_source :
  forall (clip : Clip) (tr : list event),
    0 < clip_w clip -> 0 < clip_h clip ->
    clip_h clip <= clip_w clip * 1920 ->
    1920 * clip_w clip < 1080 * clip_h clip ->
    let sw := clip_w clip * 1920 / clip_h clip in
    exists layer,
      full_screen_clip clip tr = (Ok layer, tr) /\
      clip_h layer = 1920 /\
      clip_w layer = (if sw =? 1079 then 1079 else Z.min sw ((1080 - sw) / 2)) /\
      0 < clip_w layer < 1080 /\
      clip_pos layer = (Px 0, Px 0).
Proof.
  intros clip tr Hw Hh Hone Hnarrow sw; unfold full_screen_clip.
  change (snd RESOLUTION) with 1920; change (fst RESOLUTION) with 1080.
  rewrite resize_height_spec by lia.
  unfold bind at 1; unfold ret at 1; cbn [clip_w clip_h]; fold sw.
  assert (Hsw1 : 1 <= sw) by (apply Z.div_le_lower_bound; lia).
  assert (Hsw2 : sw < 1080) by (apply Z.div_lt_upper_bound; lia).
  unfold crop; cbn [clip_w clip_h clip_src clip_duration clip_audio clip_pos].
  rewrite (center_crop_axis_quot sw 1080) by lia.
  rewrite (center_crop_axis 1920 1920) by lia.
  change ((1920 - 1920) / 2) with 0; change (0 + 1920) with 1920.
  rewrite (slice_within 1920 0 1920) by lia.
  unfold Py.slice, Py.slice_index.
  eexists; split; [reflexivity |].
  unfold set_position; cbn [clip_w clip_h clip_pos].
  split; [reflexivity |].
  assert (Hw' : Z.max
                  (if Z.quot (sw - 1080) 2 <? 0
                   then Z.max (Z.quot (sw - 1080) 2 + sw) 0
                   else Z.min (Z.quot (sw - 1080) 2) sw)
                  (if Z.quot (sw + 1080) 2 <? 0
                   then Z.max (Z.quot (sw + 1080) 2 + sw) 0
                   else Z.min (Z.quot (sw + 1080) 2) sw)
                - (if Z.quot (sw - 1080) 2 <? 0
                   then Z.max (Z.quot (sw - 1080) 2 + sw) 0
                   else Z.min (Z.quot (sw - 1080) 2) sw)
                = if sw =? 1079 then 1079 else Z.min sw ((1080 - sw) / 2)).
  { destruct (Z.ltb_spec (Z.quot (sw - 1080) 2) 0);
      destruct (Z.ltb_spec (Z.quot (sw + 1080) 2) 0);
      destruct (Z.eqb_spec sw 1079); lia. }
  rewrite Hw'; split; [reflexivity |].
  split; [destruct (Z.eqb_spec sw 1079); lia | reflexivity].
Qed.

Lemma full_bleed_narrow_source_witness :
  exists layer,
    full_screen_clip (Fixtures.recording 1080 2160 (10 # 1)) [] = (Ok layer, []) /\
    clip_h layer = 1920 /\
    clip_w layer = 60 /\
    0 < clip_w layer < 1080 /\
    clip_pos layer = (Px 0, Px 0).
Proof.
  apply (full_bleed_narrow_source (Fixtures.recording 1080 2160 (10 # 1)) []);
    cbn; lia.
Defined.

(** ** Background, text layers and outro *)

(** X8.  Whenever the background is built it is exactly 1080 by 1920,
    silent, placed at the origin and lasts the requested duration: the
    image asset resized when the asset exists, solid black otherwise; and
    without the asset the function cannot fail. *)
Theorem background_is_target_sized :
  forall (env : Env) (duration : option Q) (tr : list event),
    (path_exists env (bg_path env) = false ->
     create_background env duration tr
     = (Ok (mkClip (Color 0 0 0) 1080 1920 duration None (Px 0, Px 0)), tr)) /\
    (forall bg tr',
        create_background env duration tr = (Ok bg, tr') ->
        tr' = tr /\
        clip_w bg = 1080 /\ clip_h bg = 1920 /\
        clip_duration bg = duration /\ clip_audio bg = None /\
        clip_pos bg = (Px 0, Px 0) /\
        clip_src bg = if path_exists env (bg_path env)
                      then Resized (Image (bg_path env)) 1080 1920
                      else Color 0 0 0).
Proof.
  intros env duration tr; unfold create_background; fold (bg_path env); split.
  - intros Hno; rewrite Hno; reflexivity.
  - intros bg tr' H.
    destruct (path_exists env (bg_path env)).
    + unfold ImageClip, resize_to, resizer in H.
      destruct (image_size env (bg_path env)) as [[w h] |]; [| discriminate H].
      unfold bind at 1 2 in H; unfold ret at 1 in H;
        cbn [clip_w clip_h clip_src clip_duration clip_audio clip_pos fst snd] in H.
      change (fst RESOLUTION) with 1080 in H; change (snd RESOLUTION) with 1920 in H.
      destruct ((w <=? 0) || (h <=? 0) || (1080 <=? 0) || (1920 <=? 0));
        [discriminate H |].
      inversion H; subst; repeat split.
    + inversion H; subst; repeat split.
Qed.

Lemma background_is_target_sized_witness :
  create_background
    (Fixtures.machine None 1920 1080 (10 # 1) true true) (Some (10 # 1)%Q) []
  = (Ok (mkClip (Color 0 0 0) 1080 1920 (Some (10 # 1)%Q) None (Px 0, Px 0)), []) /\
  clip_src
    (mkClip (Resized (Image Studio.background_file) 1080 1920) 1080 1920
       (Some (10 # 1)%Q) None (Px 0, Px 0))
  = Resized (Image Studio.background_file) 1080 1920.
Proof.
  split.
  - apply (background_is_target_sized
             (Fixtures.machine None 1920 1080 (10 # 1) true true) (Some (10 # 1)%Q) []).
    reflexivity.
  - apply (background_is_target_sized
             (Studio.machine 1 1920 1080 (10 # 1)) (Some (10 # 1)%Q) []
           ) with (tr' := []).
    vm_compute; reflexivity.
Defined.

(** X9.  A text layer is rendered in the named font when that works, in
    the default font when only that works, and [create_text_clip] raises
    only when both fail; a layer it returns is centred horizontally at
    the vertical anchor asked for and lasts the requested duration. *)
Theorem text_clip_font_fallback :
  forall (env : Env) (text font : string) (size : Z) (stroke : Q)
         (y_pos : coord) (duration : option Q) (tr : list event),
    match text_size env text (Some font) size, text_size env text None size with
    | Some (w, h), _ =>
        create_text_clip env text font size stroke y_pos duration tr
        = (Ok (mkClip (Text text (Some font) size stroke) w h duration None
                 (Center, y_pos)), tr)
    | None, Some (w, h) =>
        create_text_clip env text font size stroke y_pos duration tr
        = (Ok (mkClip (Text text None size stroke) w h duration None
                 (Center, y_pos)), tr)
    | None, None =>
        exists kind msg,
          create_text_clip env text font size stroke y_pos duration tr
          = (Raise (LibraryError kind msg), tr)
    end.
Proof.
  intros env text font size stroke y_pos duration tr.
  unfold create_text_clip, try_except_Exception, TextClip, bind.
  destruct (text_size env text (Some font) size) as [[w h] |].
  - reflexivity.
  - destruct (text_size env text None size) as [[w h] |].
    + reflexivity.
    + do 2 eexists; reflexivity.
Qed.

(** X10.  Without the outro asset [append_end_sequence] returns the main
    clip itself.  With it, the result is the main clip followed by the
    outro resized to 1080 by 1920, which keeps its own duration and
    audio; an outro file that exists but cannot be opened, or has an
    empty frame, makes the function raise instead of falling back. *)
Theorem outro_appended_after_main :
  forall (env : Env) (main_clip : video) (tr : list event),
    if path_exists env (end_path env)
    then
      match probe env (end_path env) with
      | Some vi =>
          if (0 <? vi_w vi) && (0 <? vi_h vi)
          then append_end_sequence env main_clip tr
               = (Ok (VConcat main_clip
                        (mkClip (Resized (FromFile (end_path env)) 1080 1920) 1080 1920
                           (Some (vi_duration vi))
                           (option_map (mkAudio (end_path env)) (vi_audio vi))
                           (Px 0, Px 0))), tr)
          else exists kind msg,
                 append_end_sequence env main_clip tr = (Raise (LibraryError kind msg), tr)
      | None =>
          exists kind msg,
            append_end_sequence env main_clip tr = (Raise (LibraryError kind msg), tr)
      end
    else append_end_sequence env main_clip tr = (Ok main_clip, tr).
Proof.
  intros env main_clip tr; unfold append_end_sequence; fold (end_path env).
  destruct (path_exists env (end_path env)); [| reflexivity].
  unfold VideoFileClip, resize_to, resizer.
  destruct (probe env (end_path env)) as [vi |]; [| do 2 eexists; reflexivity].
  change (fst RESOLUTION) with 1080; change (snd RESOLUTION) with 1920.
  cbv [bind ret raise]; cbn [clip_w clip_h clip_src clip_duration clip_audio clip_pos].
  destruct (Z.ltb_spec 0 (vi_w vi)); destruct (Z.ltb_spec 0 (vi_h vi)); cbn [andb];
    destruct (Z.leb_spec (vi_w vi) 0); destruct (Z.leb_spec (vi_h vi) 0);
    try lia; cbn [orb]; first [reflexivity | do 2 eexists; reflexivity].
Qed.

(** ** The classifier on any zone and any frame *)

(** X11.  Whatever the zone constant and the frame size, a clamped zone
    that passes the validity test satisfies [0 <= x1 < x2 <= w] and
    [0 <= y1 < y2 <= h]: the slice [frame0[y1c:y2c, x1c:x2c]] is never
    empty and never reaches outside the frame. *)
Theorem valid_clamped_zone_in_bounds :
  forall (w h : Z) (r : Rect),
    degenerate (clamp_zone w h r) = false ->
    in_bounds w h (clamp_zone w h r).
Proof.
  intros w h r; unfold degenerate, clamp_zone, in_bounds; cbn [x1 y1 x2 y2].
  rewrite orb_false_iff, !Z.leb_gt; lia.
Qed.

Lemma valid_clamped_zone_in_bounds_witness :
  in_bounds 300 200 (clamp_zone 300 200 WEBCAM_COORDS).
Proof.
  apply (valid_clamped_zone_in_bounds 300 200 WEBCAM_COORDS); reflexivity.
Defined.

(** X12.  With the detection module installed, its cascade file present
    and a decoded first frame of at least one pixel, the classifier makes
    exactly one detector call, on the clamped webcam zone, and returns
    [True] exactly when the detector reports at least one face there; on
    a frame of at least 542 by 282 pixels that zone is the webcam zone
    itself. *)
Theorem classifier_verdict :
  forall (env : Env) (cv : Cv2) (clip : Clip) (tr : list event),
    cv2 env = Some cv ->
    path_exists env (cascade_path_of cv) = true ->
    frame0_decodes env clip ->
    1 <= clip_w clip -> 1 <= clip_h clip ->
    let zone := clamp_zone (clip_w clip) (clip_h clip) WEBCAM_COORDS in
    is_face_in_webcam_zone env clip tr
      = (Ok (0 <? faces_in cv zone)%nat, (tr ++ [EvDetect zone])%list) /\
    (542 <= clip_w clip -> 282 <= clip_h clip -> zone = WEBCAM_COORDS).
Proof.
  intros env cv clip tr Hcv Hp Hf Hw Hh zone; split.
  - apply classifier_detects; try assumption.
    destruct (degenerate _) eqn:Hd; [| reflexivity].
    apply degenerate_webcam_iff in Hd; lia.
  - intros Hw' Hh'; subst zone; unfold clamp_zone, WEBCAM_COORDS; cbn [x1 y1 x2 y2].
    f_equal; lia.
Qed.

Lemma classifier_verdict_witness :
  is_face_in_webcam_zone
    (Fixtures.machine (Some (Fixtures.opencv 0)) 1920 1080 (10 # 1) true true)
    (Fixtures.recording 1920 1080 (10 # 1)) []
  = (Ok false, [EvDetect WEBCAM_COORDS]).
Proof.
  apply (classifier_verdict
           (Fixtures.machine (Some (Fixtures.opencv 0)) 1920 1080 (10 # 1) true true)
           (Fixtures.opencv 0) (Fixtures.recording 1920 1080 (10 # 1)) []);
    first [reflexivity | cbn; lia].
Defined.

(** ** Every run of [process_gameplay_clip] *)

Lemma bind_inv {A B} (m : M A) (k : A -> M B) tr r tr' :
  bind m k tr = (r, tr') ->
  (exists e, m tr = (Raise e, tr') /\ r = Raise e)
  \/ (exists a t, m tr = (Ok a, t) /\ k a t = (r, tr')).
Proof.
  unfold bind; destruct (m tr) as [[a | e] t]; intros H.
  - right; exists a, t; split; [reflexivity | exact H].
  - left; exists e; inversion H; subst; split; reflexivity.
Qed.

(** A silent step inside a run: it raises on the spot or hands over a
    value on the same trace. *)
Lemma bind_silent_inv {A B} (m : M A) (k : A -> M B) tr r tr' :
  silent m ->
  bind m k tr = (r, tr') ->
  (exists e, m tr = (Raise e, tr) /\ r = Raise e /\ tr' = tr)
  \/ (exists a, m tr = (Ok a, tr) /\ k a tr = (r, tr')).
Proof.
  intros Hs H; apply bind_inv in H; destruct H as [(e & Hm & ->) | (a & t & Hm & Hk)].
  - destruct (silent_run _ _ _ _ Hs Hm) as [-> _].
    left; exists e; repeat split; assumption.
  - destruct (silent_run _ _ _ _ Hs Hm) as [-> _].
    right; exists a; split; assumption.
Qed.

(** The classifier step of [process_gameplay_clip], with its handler. *)
Lemma classifier_step_inv env clip tr x t :
  try_except_RuntimeError (is_face_in_webcam_zone env clip)
    (fun e => bind (close (VClip clip)) (fun _ => raise e)) tr = (x, t) ->
  (exists msg,
      is_face_in_webcam_zone env clip tr = (Raise (RuntimeError msg), tr) /\
      x = Raise (RuntimeError msg) /\ t = (tr ++ [EvClose (VClip clip)])%list)
  \/ (exists face dets,
         is_face_in_webcam_zone env clip tr = (Ok face, (tr ++ dets)%list) /\
         x = Ok face /\ t = (tr ++ dets)%list /\
         (dets = [] \/ exists zone, dets = [EvDetect zone])).
Proof.
  unfold try_except_RuntimeError; intros H.
  destruct (classifier_cases env clip tr)
    as [(msg & Hr & _) | [(Hr & _) | (cv & Hr & _)]]; rewrite Hr in H.
  - left; exists msg; split; [exact Hr |].
    inversion H; subst; split; reflexivity.
  - right; exists false, []; rewrite app_nil_r.
    inversion H; subst; repeat split; try assumption; left; reflexivity.
  - right; eexists; eexists; inversion H; subst.
    split; [exact Hr |]; repeat split; right; eexists; reflexivity.
Qed.

(** The four ways a run can go: the input does not load; the classifier
    raises; a later step raises; the run returns. *)
Lemma process_cases env input_path output_path mds clip_data tr r tr' :
  process_gameplay_clip env input_path output_path mds clip_data tr = (r, tr') ->
  (exists e, load_clip env input_path tr = (Raise e, tr) /\ r = Raise e /\ tr' = tr)
  \/ (exists clip msg,
        load_clip env input_path tr = (Ok clip, tr) /\
        is_face_in_webcam_zone env clip tr = (Raise (RuntimeError msg), tr) /\
        r = Raise (RuntimeError msg) /\ tr' = (tr ++ [EvClose (VClip clip)])%list)
  \/ (exists clip face dets e,
        load_clip env input_path tr = (Ok clip, tr) /\
        is_face_in_webcam_zone env clip tr = (Ok face, (tr ++ dets)%list) /\
        (dets = [] \/ exists zone, dets = [EvDetect zone]) /\
        r = Raise e /\ tr' = (tr ++ dets)%list)
  \/ (exists clip face dets composed final,
        load_clip env input_path tr = (Ok clip, tr) /\
        is_face_in_webcam_zone env clip tr = (Ok face, (tr ++ dets)%list) /\
        (dets = [] \/ exists zone, dets = [EvDetect zone]) /\
        r = Ok output_path /\
        tr' = (tr ++ dets ++ [EvWrite output_path final 30 "libx264" "aac";
                              EvClose (VClip clip);
                              EvClose (VComposite composed);
                              EvClose final])%list).
Proof.
  unfold process_gameplay_clip; intros H.
  apply bind_silent_inv in H; [| apply silent_load_clip].
  destruct H as [(e & Hload & -> & ->) | (clip & Hload & H)].
  { left; exists e; repeat split; assumption. }
  right.
  apply bind_inv in H; destruct H as [(e & Hstep & ->) | (face & t & Hstep & H)];
    apply classifier_step_inv in Hstep;
    destruct Hstep as [(msg & Hface & Hx & Ht) | (face' & dets & Hface & Hx & Ht & Hdets)];
    try discriminate.
  { left; exists clip, msg; inversion Hx; subst; repeat split; assumption. }
  inversion Hx; subst face' t; clear Hx.
  right.
  assert (Hfail : forall e, r = Raise e -> tr' = (tr ++ dets)%list ->
            exists clip face dets e,
              load_clip env input_path tr = (Ok clip, tr) /\
              is_face_in_webcam_zone env clip tr = (Ok face, (tr ++ dets)%list) /\
              (dets = [] \/ exists zone, dets = [EvDetect zone]) /\
              r = Raise e /\ tr' = (tr ++ dets)%list).
  { intros e Hr Ht; exists clip, face, dets, e; repeat split; assumption. }
  apply bind_silent_inv in H; [| apply silent_create_background].
  destruct H as [(e & _ & Hr & Ht) | (bg & _ & H)]; [left; eapply Hfail; eassumption |].
  apply bind_silent_inv in H; [| apply silent_create_text_clip].
  destruct H as [(e & _ & Hr & Ht) | (title & _ & H)]; [left; eapply Hfail; eassumption |].
  apply bind_silent_inv in H; [| apply silent_create_text_clip].
  destruct H as [(e & _ & Hr & Ht) | (caption & _ & H)]; [left; eapply Hfail; eassumption |].
  apply bind_silent_inv in H; [| apply silent_compose].
  destruct H as [(e & _ & Hr & Ht) | (composed & _ & H)]; [left; eapply Hfail; eassumption |].
  apply bind_silent_inv in H; [| apply silent_append_end_sequence].
  destruct H as [(e & _ & Hr & Ht) | (final & _ & H)]; [left; eapply Hfail; eassumption |].
  unfold write_videofile, close, emit, bind, ret, raise in H.
  destruct (can_write env output_path).
  - right; exists clip, face, dets, composed, final.
    inversion H; subst; repeat (split; [assumption |]).
    split; [reflexivity |].
    repeat rewrite <- app_assoc; reflexivity.
  - left; inversion H; subst; eapply Hfail; reflexivity.
Qed.

Lemma writes_app (a b : list event) : writes (a ++ b) = (writes a ++ writes b)%list.
Proof.
  induction a as [| ev a IH]; [reflexivity |].
  destruct ev; cbn; rewrite IH; reflexivity.
Qed.

Lemma detections_app (a b : list event) :
  detections (a ++ b) = (detections a ++ detections b)%list.
Proof.
  induction a as [| ev a IH]; [reflexivity |].
  destruct ev; cbn; rewrite IH; reflexivity.
Qed.

Lemma closed_app (a b : list event) : closed (a ++ b) = (closed a ++ closed b)%list.
Proof.
  induction a as [| ev a IH]; [reflexivity |].
  destruct ev; cbn; rewrite IH; reflexivity.
Qed.

(** X13.  Every run of [process_gameplay_clip] renders at most once and
    calls the detector at most once.  A run that returns, returns
    [output_path] and has rendered exactly once, to [output_path], at 30
    frames per second with the codecs [libx264] and [aac]; a run that
    raises has rendered nothing. *)
Theorem renders_once_or_never :
  forall (env : Env) (input_path output_path : string) (mds : Z)
         (clip_data : list (string * string)) (tr tr' : list event)
         (r : result string),
    process_gameplay_clip env input_path output_path mds clip_data tr = (r, tr') ->
    exists evs,
      tr' = (tr ++ evs)%list /\
      (length (detections evs) <= 1)%nat /\
      match r with
      | Ok p =>
          p = output_path /\
          exists final, writes evs = [EvWrite output_path final 30 "libx264" "aac"]
      | Raise _ => writes evs = []
      end.
Proof.
  intros env input_path output_path mds clip_data tr tr' r Hrun.
  apply process_cases in Hrun.
  destruct Hrun as [(e & _ & -> & ->)
                   | [(clip & msg & _ & _ & -> & ->)
                     | [(clip & face & dets & e & _ & _ & Hdets & -> & ->)
                       | (clip & face & dets & composed & final & _ & _ & Hdets & -> & ->)]]].
  - exists []; rewrite app_nil_r; repeat split; cbn; lia.
  - eexists; split; [reflexivity |]; cbn; split; [lia | reflexivity].
  - exists dets; split; [reflexivity |].
    destruct Hdets as [-> | [zone ->]]; cbn; split; first [lia | reflexivity].
  - eexists; split; [reflexivity |].
    rewrite detections_app, writes_app.
    destruct Hdets as [-> | [zone ->]]; cbn; (split; [lia |]);
      (split; [reflexivity | exists final; reflexivity]).
Qed.

Lemma renders_once_or_never_witness :
  exists evs,
    snd (process_gameplay_clip (Studio.machine 1 1920 1080 (10 # 1))
           "in.mp4" "short.mp4" 60 [] []) = ([] ++ evs)%list /\
    (length (detections evs) <= 1)%nat /\
    "short.mp4" = "short.mp4" /\
    exists final, writes evs = [EvWrite "short.mp4" final 30 "libx264" "aac"].
Proof.
  apply (renders_once_or_never (Studio.machine 1 1920 1080 (10 # 1))
           "in.mp4" "short.mp4" 60 [] [] _ (Ok "short.mp4")).
  vm_compute; reflexivity.
Defined.

(** X14.  A run reads the metadata through the keys [title] and
    [broadcaster_name] only: two dictionaries that agree on these two
    lookups, defaults included, give the same run, so [game_name] and any
    other key have no effect. *)
Theorem only_title_and_broadcaster_are_read :
  forall (env : Env) (input_path output_path : string) (mds : Z)
         (d1 d2 : list (string * string)),
    Py.dict_get d1 "title" "Titre du clip" = Py.dict_get d2 "title" "Titre du clip" ->
    Py.dict_get d1 "broadcaster_name" "Streamer"
    = Py.dict_get d2 "broadcaster_name" "Streamer" ->
    process_gameplay_clip env input_path output_path mds d1
    = process_gameplay_clip env input_path output_path mds d2.
Proof.
  intros env input_path output_path mds d1 d2 Ht Hb.
  unfold process_gameplay_clip; rewrite Ht, Hb; reflexivity.
Qed.

Lemma only_title_and_broadcaster_are_read_witness :
  process_gameplay_clip (Studio.machine 1 1920 1080 (10 # 1)) "in.mp4" "short.mp4" 60
    [("title", "Ace"); ("game_name", "Valorant")]
  = process_gameplay_clip (Studio.machine 1 1920 1080 (10 # 1)) "in.mp4" "short.mp4" 60
      [("game_name", "Chess"); ("title", "Ace"); ("broadcaster_name", "Streamer")].
Proof.
  apply (only_title_and_broadcaster_are_read
           (Studio.machine 1 1920 1080 (10 # 1)) "in.mp4" "short.mp4" 60
           [("title", "Ace"); ("game_name", "Valorant")]
           [("game_name", "Chess"); ("title", "Ace"); ("broadcaster_name", "Streamer")]);
    reflexivity.
Defined.

Lemma create_text_clip_inv env text font size stroke y_pos duration tr c tr' :
  create_text_clip env text font size stroke y_pos duration tr = (Ok c, tr') ->
  (clip_src c = Text text (Some font) size stroke
   \/ clip_src c = Text text None size stroke) /\
  clip_pos c = (Center, y_pos) /\ clip_duration c = duration.
Proof.
  intros H.
  unfold create_text_clip, try_except_Exception, TextClip, bind in H.
  destruct (text_size env text (Some font) size) as [[w h] |].
  - inversion H; subst; cbn; repeat split; left; reflexivity.
  - destruct (text_size env text None size) as [[w h] |]; [| discriminate H].
    inversion H; subst; cbn; repeat split; right; reflexivity.
Qed.

(** X15.  In every run that returns, the two topmost layers of the
    rendered plan are the title and the caption.  The title shows the
    [title] of the metadata, or "Titre du clip" when the key is missing,
    at size 70 with stroke 1.5, centred at the top; the caption shows "@"
    followed by the [broadcaster_name], or "@Streamer" when the key is
    missing, at size 40 with stroke 0.5, centred at the bottom; each is in
    its Roboto font or, failing that, in the default font. *)
Theorem title_and_caption_on_top :
  forall (env : Env) (input_path output_path : string) (mds : Z)
         (clip_data : list (string * string)) (tr tr' : list event) (r : string),
    process_gameplay_clip env input_path output_path mds clip_data tr = (Ok r, tr') ->
    exists plan final below title caption,
      In (EvWrite output_path final 30 "libx264" "aac") tr' /\
      main_of final = VComposite plan /\
      layers plan = (below ++ [title; caption])%list /\
      (clip_src title
       = Text (Py.dict_get clip_data "title" "Titre du clip")
           (Some "Roboto-Bold.ttf") 70 (3 # 2)
       \/ clip_src title
          = Text (Py.dict_get clip_data "title" "Titre du clip") None 70 (3 # 2)) /\
      clip_pos title = (Center, Top) /\
      (clip_src caption
       = Text ("@" ++ Py.dict_get clip_data "broadcaster_name" "Streamer")
           (Some "Roboto-Regular.ttf") 40 (1 # 2)
       \/ clip_src caption
          = Text ("@" ++ Py.dict_get clip_data "broadcaster_name" "Streamer")
              None 40 (1 # 2)) /\
      clip_pos caption = (Center, Bottom).
Proof.
  intros env input_path output_path mds clip_data tr tr' r Hrun.
  apply process_rendered_plan in Hrun.
  destruct Hrun as (clip & face & evs & bg & title & caption & plan & final
                    & _ & _ & _ & Htitle & Hcap & Hin & Hmain & _ & Hshape).
  specialize (Htitle []); specialize (Hcap []).
  apply create_text_clip_inv in Htitle; destruct Htitle as (Hts & Htp & _).
  apply create_text_clip_inv in Hcap; destruct Hcap as (Hcs & Hcp & _).
  assert (Hlayers : exists below, layers plan = (below ++ [title; caption])%list).
  { destruct face.
    - destruct Hshape as (g & w & _ & _ & -> & _); exists [bg; g; w]; reflexivity.
    - destruct Hshape as (f & _ & -> & _); exists [f]; reflexivity. }
  destruct Hlayers as [below Hlayers].
  exists plan, final, below, title, caption; repeat (split; [assumption |]); assumption.
Qed.

Lemma title_and_caption_on_top_witness :
  exists plan final below title caption,
    In (EvWrite "short.mp4" final 30 "libx264" "aac")
      (snd (process_gameplay_clip (Studio.machine 0 1920 1080 (10 # 1))
              "in.mp4" "short.mp4" 60 [("title", "Ace")] [])) /\
    main_of final = VComposite plan /\
    layers plan = (below ++ [title; caption])%list /\
    (clip_src title = Text "Ace" (Some "Roboto-Bold.ttf") 70 (3 # 2)
     \/ clip_src title = Text "Ace" None 70 (3 # 2)) /\
    clip_pos title = (Center, Top) /\
    (clip_src caption = Text "@Streamer" (Some "Roboto-Regular.ttf") 40 (1 # 2)
     \/ clip_src caption = Text "@Streamer" None 40 (1 # 2)) /\
    clip_pos caption = (Center, Bottom).
Proof.
  apply (title_and_caption_on_top (Studio.machine 0 1920 1080 (10 # 1))
           "in.mp4" "short.mp4" 60 [("title", "Ace")] [] _ "short.mp4").
  vm_compute; reflexivity.
Defined.

Lemma append_end_sequence_inv env main_clip tr final tr' :
  append_end_sequence env main_clip tr = (Ok final, tr') ->
  if path_exists env (end_path env)
  then exists outro inner,
         final = VConcat main_clip outro /\ clip_src outro = Resized inner 1080 1920
  else final = main_clip.
Proof.
  unfold append_end_sequence; fold (end_path env).
  destruct (path_exists env (end_path env)); intros H.
  - apply bind_Ok_inv in H; destruct H as (e1 & t1 & _ & H).
    apply bind_Ok_inv in H; destruct H as (e2 & t2 & Hres & H).
    apply resizer_src in Hres.
    inversion H; subst; exists e2; eexists; split; [reflexivity | exact Hres].
  - inversion H; reflexivity.
Qed.

Lemma load_clip_src env input_path tr clip tr' :
  load_clip env input_path tr = (Ok clip, tr') ->
  clip_src clip = FromFile input_path
  \/ exists a b, clip_src clip = Subclipped (FromFile input_path) a b.
Proof.
  intros H.
  destruct (probe env input_path) as [vi |] eqn:Hp.
  - rewrite (load_clip_spec env input_path vi tr Hp) in H.
    destruct (vi_duration vi ?= cap)%Q; inversion H; subst; cbn [clip_src];
      first [left; reflexivity | right; do 2 eexists; reflexivity].
  - unfold load_clip, VideoFileClip in H; rewrite Hp in H; discriminate H.
Qed.

(** X16.  A run that returns closes, after rendering and in this order,
    the trimmed source clip, the composed visual and the final sequence,
    and nothing else.  With an outro asset the final sequence is a new
    object and the outro clip opened for it is never closed; without one
    the final sequence is the composed visual itself, which is thus closed
    twice. *)
Theorem closes_of_a_returning_run :
  forall (env : Env) (input_path output_path : string) (mds : Z)
         (clip_data : list (string * string)) (tr tr' : list event) (r : string),
    process_gameplay_clip env input_path output_path mds clip_data tr = (Ok r, tr') ->
    exists clip composed final dets,
      load_clip env input_path tr = (Ok clip, tr) /\
      tr' = (tr ++ dets ++ [EvWrite output_path final 30 "libx264" "aac";
                            EvClose (VClip clip);
                            EvClose (VComposite composed);
                            EvClose final])%list /\
      closed dets = [] /\
      if path_exists env (end_path env)
      then exists outro,
             final = VConcat (VComposite composed) outro /\
             ~ In (VClip outro) [VClip clip; VComposite composed; final]
      else final = VComposite composed.
Proof.
  intros env input_path output_path mds clip_data tr tr' r Hrun.
  apply process_ok_inv in Hrun.
  destruct Hrun as ([clip face evs bg title caption plan final] & H).
  cbn zeta in H;
    cbn [rv_clip rv_face rv_detector rv_bg rv_title rv_streamer rv_composed rv_final] in H.
  destruct H as (Hload & Hface & _ & _ & _ & _ & Hfinal & _ & _ & ->).
  exists clip, plan, final, evs.
  split; [exact Hload |]. split; [rewrite <- app_assoc; reflexivity |].
  split.
  - destruct (classifier_cases env clip tr)
      as [(msg & Hr & _) | [(Hr & _) | (cv & Hr & _)]];
      rewrite Hr in Hface; inversion Hface as [[Hb Hevs]].
    + rewrite <- (app_nil_r tr) in Hevs at 1.
      apply app_inv_head in Hevs; subst evs; reflexivity.
    + apply app_inv_head in Hevs; subst evs; reflexivity.
  - apply append_end_sequence_inv in Hfinal.
    destruct (path_exists env (end_path env)); [| exact Hfinal].
    destruct Hfinal as (outro & inner & -> & Hsrc).
    exists outro; split; [reflexivity |].
    intros [E | [E | [E | []]]]; try discriminate E.
    inversion E; subst outro.
    apply load_clip_src in Hload.
    destruct Hload as [Hl | (a & b & Hl)]; congruence.
Qed.

Lemma closes_of_a_returning_run_witness :
  exists clip composed final dets,
    load_clip (Studio.machine 1 1920 1080 (10 # 1)) "in.mp4" [] = (Ok clip, []) /\
    snd (process_gameplay_clip (Studio.machine 1 1920 1080 (10 # 1))
           "in.mp4" "short.mp4" 60 [] [])
    = ([] ++ dets ++ [EvWrite "short.mp4" final 30 "libx264" "aac";
                      EvClose (VClip clip);
                      EvClose (VComposite composed);
                      EvClose final])%list /\
    closed dets = [] /\
    exists outro,
      final = VConcat (VComposite composed) outro /\
      ~ In (VClip outro) [VClip clip; VComposite composed; final].
Proof.
  apply (closes_of_a_returning_run (Studio.machine 1 1920 1080 (10 # 1))
           "in.mp4" "short.mp4" 60 [] [] _ "short.mp4").
  vm_compute; reflexivity.
Defined.

(** X17.  [load_clip] raises exactly when the file cannot be opened.
    Otherwise the clip it returns has the frame size of the file, sits at
    the origin, and has an audio track exactly when the file has one; that
    track is cut to 180 s together with the pictures when the file is
    longer, and left as it is otherwise. *)
Theorem load_clip_keeps_frame_and_audio :
  forall (env : Env) (input_path : string) (tr : list event),
    match probe env input_path with
    | None =>
        load_clip env input_path tr = (Raise (LibraryError "OSError" input_path), tr)
    | Some vi =>
        exists clip,
          load_clip env input_path tr = (Ok clip, tr) /\
          clip_w clip = vi_w vi /\ clip_h clip = vi_h vi /\
          clip_pos clip = (Px 0, Px 0) /\
          clip_audio clip
          = option_map
              (fun d => mkAudio input_path
                          (match (vi_duration vi ?= cap)%Q with Gt => cap | _ => d end))
              (vi_audio vi)
    end.
Proof.
  intros env input_path tr.
  destruct (probe env input_path) as [vi |] eqn:Hp.
  - rewrite (load_clip_spec env input_path vi tr Hp).
    destruct (vi_duration vi ?= cap)%Q; eexists; (split; [reflexivity |]);
      cbn [clip_w clip_h clip_pos clip_audio]; repeat split;
      destruct (vi_audio vi); reflexivity.
  - unfold load_clip, VideoFileClip; rewrite Hp; reflexivity.
Qed.
